(** * DocMate: a shallow embedding of [docmate_service.py]

    The service keeps one in-memory cache of repository indexes and serves
    two HTTP routes.  Everything that touches the network (PyGithub,
    llama_index, the OpenAI binding, Flask's request object) is an external
    collaborator: the embedding takes those as the fields of one record,
    [Externals], and every theorem is stated for an arbitrary instance of it.

    Python values that reach the code from the request body are modelled by
    [pyval]; exceptions by [exn]; the process state by [world]; effectful
    code by the state-and-exception monad [M]. *)

From Stdlib Require Import ZArith String Ascii List Lia.
From Stdlib Require Import Floats.SpecFloat.
From stdpp Require Import gmap strings list fin_maps pretty.

Open Scope string_scope.
#[local] Set Warnings "-register-all".

(* ===================================================================== *)
(** ** Python values *)
(* ===================================================================== *)

(** What [request.get_json()] can hand to the handler: the values
    [json.loads] produces.  A dict has unique string keys, hence [gmap]. *)
Inductive pyval :=
| PyNone
| PyBool (b : bool)
| PyInt (z : Z)
| PyFloat (f : spec_float)
| PyStr (s : string)
| PyList (l : list pyval)
| PyDict (d : gmap string pyval).

(** [type(v).__name__], as it appears in the interpreter's messages. *)
Definition type_name (v : pyval) : string :=
  match v with
  | PyNone => "NoneType"
  | PyBool _ => "bool"
  | PyInt _ => "int"
  | PyFloat _ => "float"
  | PyStr _ => "str"
  | PyList _ => "list"
  | PyDict _ => "dict"
  end.

(** [bool(v)]: the truth value tested by [if v] and [not v]. *)
Definition truthy (v : pyval) : bool :=
  match v with
  | PyNone => false
  | PyBool b => b
  | PyInt z => negb (z =? 0)%Z
  | PyFloat f => match f with S754_zero _ => false | _ => true end
  | PyStr s => negb (String.eqb s "")
  | PyList l => match l with [] => false | _ => true end
  | PyDict d => negb (bool_decide (d = ∅))
  end.

(** Truth value of an [Optional[str]], as [os.getenv] returns it. *)
Definition str_truthy (o : option string) : bool :=
  match o with
  | None => false
  | Some s => negb (String.eqb s "")
  end.

(* ===================================================================== *)
(** ** Exceptions *)
(* ===================================================================== *)

(** An instance of a subclass of [Exception]: its class name and [str(e)].
    The texts of the interpreter's own errors are those of CPython 3.12;
    no theorem below depends on them. *)
Record exn := Exn { exc_type : string; exc_str : string }.

Definition ValueError (msg : string) : exn := Exn "ValueError" msg.
Definition IndexError (msg : string) : exn := Exn "IndexError" msg.
Definition TypeError (msg : string) : exn := Exn "TypeError" msg.
Definition KeyError (msg : string) : exn := Exn "KeyError" msg.
Definition AttributeError (msg : string) : exn := Exn "AttributeError" msg.
Definition UnboundLocalError (msg : string) : exn := Exn "UnboundLocalError" msg.

(** The outcome of an expression that may raise. *)
Abbreviation result A := (exn + A)%type.

Definition no_attribute (v : pyval) (attr : string) : exn :=
  AttributeError ("'" ++ type_name v ++ "' object has no attribute '" ++ attr ++ "'").

(* ===================================================================== *)
(** ** String and container operations of the interpreter *)
(* ===================================================================== *)

(** [s.split(sep)] for a one-character separator.  Strings are byte
    strings here; '/' is a single byte that occurs inside no multi-byte
    UTF-8 sequence, so splitting bytes and splitting code points agree. *)
Fixpoint split_on (sep : ascii) (s : string) : list string :=
  match s with
  | EmptyString => [EmptyString]
  | String c s' =>
      if Ascii.eqb c sep then EmptyString :: split_on sep s'
      else match split_on sep s' with
           | [] => [String c EmptyString]
           | h :: t => String c h :: t
           end
  end.

(** Number of occurrences of a character. *)
Fixpoint count_char (sep : ascii) (s : string) : nat :=
  match s with
  | EmptyString => 0
  | String c s' => (if Ascii.eqb c sep then 1 else 0) + count_char sep s'
  end.

(** [p in s] on two strings: substring test. *)
Fixpoint contains (p s : string) : bool :=
  String.prefix p s ||
  match s with
  | EmptyString => false
  | String _ s' => contains p s'
  end.

(** [repo_name.split('/')[k]] (source lines 41 and 42). *)
Definition split_item (v : pyval) (k : nat) : result string :=
  match v with
  | PyStr s =>
      match split_on "/" s !! k with
      | Some seg => inr seg
      | None => inl (IndexError "list index out of range")
      end
  | _ => inl (no_attribute v "split")
  end.

(** [k in v] with [k] a string literal (source line 106). *)
Definition py_in (k : string) (v : pyval) : result bool :=
  match v with
  | PyDict d => inr (bool_decide (is_Some (d !! k)))
  | PyList l =>
      inr (existsb (fun x => match x with PyStr s => String.eqb s k | _ => false end) l)
  | PyStr s => inr (contains k s)
  | _ => inl (TypeError ("argument of type '" ++ type_name v ++ "' is not iterable"))
  end.

(** [v[k]] with [k] a string literal (source lines 111 and 112). *)
Definition py_getitem (v : pyval) (k : string) : result pyval :=
  match v with
  | PyDict d =>
      match d !! k with
      | Some x => inr x
      | None => inl (KeyError ("'" ++ k ++ "'"))
      end
  | PyList _ => inl (TypeError "list indices must be integers or slices, not str")
  | PyStr _ => inl (TypeError "string indices must be integers, not 'str'")
  | _ => inl (TypeError ("'" ++ type_name v ++ "' object is not subscriptable"))
  end.

(** [v.get(k, default)] (source line 113). *)
Definition py_get (v : pyval) (k : string) (default_value : pyval) : result pyval :=
  match v with
  | PyDict d => inr (default default_value (d !! k))
  | _ => inl (no_attribute v "get")
  end.

(* ===================================================================== *)
(** ** External collaborators *)
(* ===================================================================== *)

(** The libraries the service calls.  Their objects are opaque types and
    each call is a function of its arguments that either returns or raises;
    nothing is assumed about what they answer, and no theorem below
    compares two calls of one collaborator.  [index_truthy] is the truth
    value of an index object, tested on lines 87 and 117. *)
Record Externals := {
  (** PyGithub *)
  Github : Type;
  Repository : Type;
  Branch : Type;
  Github_init : string -> result Github;
  get_repo : Github -> string -> result Repository;
  get_branch : Repository -> pyval -> result Branch;
  commit_sha : Branch -> string;
  (** llama_index: the GitHub reader *)
  GithubClient : Type;
  GithubRepositoryReader : Type;
  Document : Type;
  GithubClient_init : string -> result GithubClient;
  GithubRepositoryReader_init :
    GithubClient -> string -> string -> bool -> result GithubRepositoryReader;
  load_data : GithubRepositoryReader -> string -> result (list Document);
  (** llama_index: the index and the query engine *)
  VectorStoreIndex : Type;
  LLM : Type;
  QueryEngine : Type;
  Response : Type;
  NodeWithScore : Type;
  from_documents : list Document -> bool -> result VectorStoreIndex;
  index_truthy : VectorStoreIndex -> bool;
  OpenAI : string -> result LLM;
  as_query_engine : VectorStoreIndex -> Z -> LLM -> result QueryEngine;
  query : QueryEngine -> pyval -> result Response;
  Response_str : Response -> string;
  source_nodes : Response -> list NodeWithScore;
  node_text : NodeWithScore -> string;
  (** Flask's request object *)
  Request : Type;
  get_json : Request -> result pyval;
  (** the interpreter: [traceback.format_exc()] and [str] of a float, a list
      or a dict *)
  format_exc : exn -> string;
  str_compound : pyval -> string
}.

Section Service.

Context (E : Externals).

(** The values of the cache. *)
Abbreviation Index := (VectorStoreIndex E).

(** [str(v)], which is what an f-string field applies to [v]. *)
Definition py_str (v : pyval) : string :=
  match v with
  | PyStr s => s
  | PyNone => "None"
  | PyBool true => "True"
  | PyBool false => "False"
  | PyInt z => pretty z
  | _ => str_compound E v
  end.

(* ===================================================================== *)
(** ** The process state *)
(* ===================================================================== *)

(** Calls that leave the process, in the order they are made. *)
Inductive event :=
| EPrint (line : string)
| EGithub (token : string)
| EGetRepo (g : Github E) (full_name : string)
| EGetBranch (r : Repository E) (branch : pyval)
| EGithubClient (token : string)
| EReader (c : GithubClient E) (owner repo : string) (verbose : bool)
| ELoadData (r : GithubRepositoryReader E) (commit_sha : string)
| EFromDocuments (docs : list (Document E)) (show_progress : bool)
| EClose (g : Github E)
| EOpenAI (model : string)
| EAsQueryEngine (i : Index) (similarity_top_k : Z) (llm : LLM E)
| EQuery (q : QueryEngine E) (text : pyval)
| EAppRun (host : string) (port : Z) (debug : bool).

(** [repo_cache] is the module-level dict, [environ] is [os.environ],
    [trace] the calls made so far.  [loader_calls] counts the entries into
    [load_github_docs]; it is ghost state, the call counter a test would
    put on the loader.  [cache_lock] is not part of the state: in a
    sequential run it is free at every call and [with] releases it on every
    exit path. *)
Record world := World {
  repo_cache : gmap string Index;
  environ : gmap string string;
  trace : list event;
  loader_calls : nat
}.

Definition empty_world : world := World ∅ ∅ [] 0.

(* ===================================================================== *)
(** ** The state-and-exception monad *)
(* ===================================================================== *)

Definition M (A : Type) : Type := world -> result A * world.

Definition ret {A} (a : A) : M A := fun w => (inr a, w).

Definition raise {A} (e : exn) : M A := fun w => (inl e, w).

Definition bind {A B} (m : M A) (k : A -> M B) : M B :=
  fun w =>
    match m w with
    | (inl e, w') => (inl e, w')
    | (inr a, w') => k a w'
    end.

(** An expression of the interpreter that may raise and has no effect. *)
Definition lift {A} (r : result A) : M A := fun w => (r, w).

Definition emit (ev : event) : M unit :=
  fun w => (inr tt, World (repo_cache w) (environ w) (trace w ++ [ev]) (loader_calls w)).

(** A call to a collaborator: it is recorded, then it returns or raises. *)
Definition call {A} (ev : event) (r : result A) : M A :=
  fun w =>
    match emit ev w with
    | (_, w') => (r, w')
    end.

Definition print (line : string) : M unit := emit (EPrint line).

(** [os.getenv(name)] *)
Definition getenv (name : string) : M (option string) :=
  fun w => (inr (environ w !! name), w).

(** [try: body except Exception as e: handler e] *)
Definition try_except {A} (body : M A) (handler : exn -> M A) : M A :=
  fun w =>
    match body w with
    | (inl e, w') => handler e w'
    | (inr a, w') => (inr a, w')
    end.

(** [try: body finally: final].  An exception raised by [final] replaces
    the pending outcome of [body], a pending [return] included. *)
Definition try_finally {A} (body : M A) (final : M unit) : M A :=
  fun w =>
    match body w with
    | (r, w1) =>
        match final w1 with
        | (inl e, w2) => (inl e, w2)
        | (inr _, w2) => (r, w2)
        end
    end.

#[local] Notation "x <- m ;; k" := (bind m (fun x => k))
  (at level 100, m at next level, right associativity).
#[local] Notation "m ;;; k" := (bind m (fun _ => k))
  (at level 100, right associativity).

(* ===================================================================== *)
(** ** [load_github_docs] (source lines 26-76) *)
(* ===================================================================== *)

(** Ghost step: one more entry into the loader. *)
Definition tick (w : world) : world :=
  World (repo_cache w) (environ w) (trace w) (S (loader_calls w)).

(** Lines 32-35: the token is the argument, or else the environment's. *)
Definition resolve_token (github_token : option string) : M string :=
  match github_token with
  | Some t => ret t
  | None =>
      t <- getenv "GITHUB_TOKEN" ;;
      match t with
      | Some s =>
          if String.eqb s "" then raise (ValueError "GitHub token not found")
          else ret s
      | None => raise (ValueError "GitHub token not found")
      end
  end.

(** The token lines 32-35 settle on, if there is one: what [resolve_token]
    returns, as a function of the state. *)
Definition token_of (github_token : option string) (w : world) : option string :=
  match github_token with
  | Some t => Some t
  | None =>
      match environ w !! "GITHUB_TOKEN" with
      | Some s => if String.eqb s "" then None else Some s
      | None => None
      end
  end.

(** Lines 41-69: the [try] block once [g] is bound. *)
Definition load_docs_rest (g : Github E) (github_token : string)
    (repo_name branch : pyval) : M (option Index) :=
  owner <- lift (split_item repo_name 0) ;;
  repo <- lift (split_item repo_name 1) ;;
  repository <- call (EGetRepo g (owner ++ "/" ++ repo))
                     (get_repo E g (owner ++ "/" ++ repo)) ;;
  branch_ref <- call (EGetBranch repository branch)
                     (get_branch E repository branch) ;;
  github_client <- call (EGithubClient github_token)
                        (GithubClient_init E github_token) ;;
  reader <- call (EReader github_client owner repo true)
                 (GithubRepositoryReader_init E github_client owner repo true) ;;
  documents <- call (ELoadData reader (commit_sha E branch_ref))
                    (load_data E reader (commit_sha E branch_ref)) ;;
  match documents with
  | [] => ret None
  | _ =>
      index <- call (EFromDocuments documents true)
                    (from_documents E documents true) ;;
      ret (Some index)
  end.

(** Lines 31-69: the whole [try] block.  Next to its outcome it gives the
    binding of the local variable [g] at the moment the block is left:
    [None] while line 38 has not assigned it. *)
Definition load_docs_try (repo_name : pyval) (github_token : option string)
    (branch : pyval) (w : world)
  : option (Github E) * (result (option Index) * world) :=
  match resolve_token github_token w with
  | (inl e, w1) => (None, (inl e, w1))
  | (inr token, w1) =>
      match call (EGithub token) (Github_init E token) w1 with
      | (inl e, w2) => (None, (inl e, w2))
      | (inr g, w2) => (Some g, load_docs_rest g token repo_name branch w2)
      end
  end.

(** Lines 71-74: the [except Exception] clause. *)
Definition load_docs_except (e : exn) : M (option Index) :=
  print ("Error loading repository: " ++ exc_str e) ;;;
  print (format_exc E e) ;;;
  ret None.

(** Lines 75-76: the [finally] clause, [g.close()].  Reading a local
    variable that was never assigned raises [UnboundLocalError];
    [Github.close] itself only drops the connection and does not raise. *)
Definition unbound_g : exn :=
  UnboundLocalError
    "cannot access local variable 'g' where it is not associated with a value".

Definition load_docs_finally (g : option (Github E)) : M unit :=
  match g with
  | Some h => emit (EClose h)
  | None => raise unbound_g
  end.

Definition load_github_docs (repo_name : pyval) (github_token : option string)
    (branch : pyval) : M (option Index) :=
  fun w =>
    match load_docs_try repo_name github_token branch (tick w) with
    | (g, (r, w1)) =>
        try_finally (try_except (lift r) load_docs_except)
                    (load_docs_finally g) w1
    end.

(** The part of the state no step of the loader writes to, the ghost
    counter apart. *)
Definition same_store (w w' : world) : Prop :=
  repo_cache w' = repo_cache w /\ environ w' = environ w /\
  loader_calls w' = loader_calls w.

(* ===================================================================== *)
(** ** [get_or_create_index] (source lines 78-89) *)
(* ===================================================================== *)

(** Line 82 *)
Definition cache_key (repo_name branch : pyval) : string :=
  py_str repo_name ++ ":" ++ py_str branch.

(** [repo_cache.get(key)]; [key in repo_cache] is [is_Some] of it. *)
Definition cache_get (key : string) : M (option Index) :=
  fun w => (inr (repo_cache w !! key), w).

(** [repo_cache[key] = index] *)
Definition cache_set (key : string) (index : Index) : M unit :=
  fun w =>
    (inr tt, World (<[key := index]> (repo_cache w)) (environ w) (trace w)
                   (loader_calls w)).

Definition get_or_create_index (repo_name branch : pyval) : M (option Index) :=
  let cache_key := cache_key repo_name branch in
  cached <- cache_get cache_key ;;
  match cached with
  | None =>
      index <- load_github_docs repo_name None branch ;;
      match index with
      | Some i => if index_truthy E i then cache_set cache_key i else ret tt
      | None => ret tt
      end
  | Some _ => ret tt
  end ;;;
  cache_get cache_key.

(* ===================================================================== *)
(** ** The HTTP handlers (source lines 91-145) *)
(* ===================================================================== *)

(** What a view function hands back to Flask: a status and a JSON body. *)
Record http_response := Http { status : Z; body : pyval }.

(** [jsonify(d)] *)
Definition jsonify (d : gmap string pyval) : pyval := PyDict d.

Definition error_body (msg : string) : pyval :=
  jsonify {[ "error" := PyStr msg ]}.

(** Line 106: [not data or 'repo' not in data or 'query' not in data],
    evaluated left to right with short circuit. *)
Definition missing_parameters (data : pyval) : result bool :=
  if negb (truthy data) then inr true
  else match py_in "repo" data with
       | inl e => inl e
       | inr has_repo =>
           if negb has_repo then inr true
           else match py_in "query" data with
                | inl e => inl e
                | inr has_query => inr (negb has_query)
                end
       end.

(** Lines 117-135: from the index to the response. *)
Definition query_docs_answer (index : option Index) (query_text : pyval)
  : M http_response :=
  match index with
  | Some i =>
      if index_truthy E i then
        llm <- call (EOpenAI "gpt-3.5-turbo") (OpenAI E "gpt-3.5-turbo") ;;
        query_engine <- call (EAsQueryEngine i 3 llm) (as_query_engine E i 3 llm) ;;
        response <- call (EQuery query_engine query_text)
                         (query E query_engine query_text) ;;
        ret (Http 200 (jsonify
               {[ "response" := PyStr (Response_str E response);
                  "sources" := PyList (map (fun node => PyStr (node_text E node))
                                           (source_nodes E response)) ]}))
      else ret (Http 500 (error_body "Failed to load repository"))
  | None => ret (Http 500 (error_body "Failed to load repository"))
  end.

(** Lines 104-135: the [try] block of the handler. *)
Definition query_docs_try (request : Request E) : M http_response :=
  data <- lift (get_json E request) ;;
  missing <- lift (missing_parameters data) ;;
  if missing then ret (Http 400 (error_body "Missing required parameters"))
  else
    repo <- lift (py_getitem data "repo") ;;
    query_text <- lift (py_getitem data "query") ;;
    branch <- lift (py_get data "branch" (PyStr "main")) ;;
    index <- get_or_create_index repo branch ;;
    query_docs_answer index query_text.

(** Lines 103-140: [POST /query]. *)
Definition query_docs (request : Request E) : M http_response :=
  try_except (query_docs_try request)
             (fun e => ret (Http 500 (error_body (exc_str e)))).

(** Lines 142-145: [GET /health]. *)
Definition health_check : M http_response :=
  ret (Http 200 (jsonify {[ "status" := PyStr "healthy" ]})).

(* ===================================================================== *)
(** ** Startup (source lines 147-155) *)
(* ===================================================================== *)

Definition required_vars : list string := ["GITHUB_TOKEN"; "OPENAI_API_KEY"].

(** Line 150: [[var for var in required_vars if not os.getenv(var)]] *)
Definition missing_vars (w : world) : list string :=
  List.filter (fun var => negb (str_truthy (environ w !! var))) required_vars.

(** The body of [if __name__ == '__main__'].  [app.run] is recorded as the
    event [EAppRun]: that call is where the server binds its port. *)
Definition main : M unit :=
  fun w =>
    match missing_vars w with
    | [] => emit (EAppRun "0.0.0.0" 5000 true) w
    | missing =>
        raise (ValueError ("Missing required environment variables: "
                           ++ String.concat ", " missing)) w
    end.

End Service.

Arguments repo_cache {E} w.
Arguments environ {E} w.
Arguments trace {E} w.
Arguments loader_calls {E} w.
Arguments tick {E} w.
Arguments ret {E A} a w.
Arguments raise {E A} e w.
Arguments bind {E A B} m k w.
Arguments lift {E A} r w.
Arguments emit {E} ev w.
Arguments call {E A} ev r w.
Arguments try_except {E A} body handler w.
Arguments try_finally {E A} body final w.

(* ===================================================================== *)
(** ** A mocked set of collaborators *)
(* ===================================================================== *)

(** Stand-ins that always answer: a client is its token, a repository its
    full name, an index the list of its documents.  The repository
    "octo/empty" has no documents; every query gets one fixed answer with
    two source passages. *)
Definition mock : Externals := {|
  Github := string;
  Repository := string;
  Branch := string;
  Github_init := fun token => inr token;
  get_repo := fun _ full_name => inr full_name;
  get_branch := fun r _ => inr ("sha-of-" ++ r);
  commit_sha := fun b => b;
  GithubClient := string;
  GithubRepositoryReader := string * string;
  Document := string;
  GithubClient_init := fun token => inr token;
  GithubRepositoryReader_init := fun _ owner repo _ => inr (owner, repo);
  load_data := fun '(owner, repo) _ =>
    if String.eqb repo "empty" then inr [] else inr ["README of " ++ owner ++ "/" ++ repo];
  VectorStoreIndex := list string;
  LLM := string;
  QueryEngine := list string * Z * string;
  Response := string * list string;
  NodeWithScore := string;
  from_documents := fun docs _ => inr docs;
  index_truthy := fun _ => true;
  OpenAI := fun model => inr model;
  as_query_engine := fun i k llm => inr (i, k, llm);
  query := fun _ _ => inr ("a fixed answer", ["first passage"; "second passage"]);
  Response_str := fst;
  source_nodes := snd;
  node_text := fun n => n;
  Request := result pyval;
  get_json := fun r => r;
  format_exc := fun e => "Traceback (most recent call last): " ++ exc_type e;
  str_compound := fun _ => "<compound>"
|}.

(** A process whose environment holds both secrets; [empty_world mock]
    holds none. *)
Definition configured : world mock :=
  World mock ∅ {[ "GITHUB_TOKEN" := "ghp_token"; "OPENAI_API_KEY" := "sk-key" ]} [] 0.

(** Two requests without a 'branch' field. *)
Definition hello_request : Request mock :=
  inr (PyDict {[ "repo" := PyStr "octo/hello"; "query" := PyStr "what is this?" ]}).

Definition empty_request : Request mock :=
  inr (PyDict {[ "repo" := PyStr "octo/empty"; "query" := PyStr "anything?" ]}).


(* ===================================================================== *)
(** ** Proof support *)
(* ===================================================================== *)

Ltac unfold_monad :=
  unfold bind, ret, raise, lift, call, emit, print, getenv, try_except,
    try_finally, cache_get, cache_set in *.

(** Split on the next scrutinee of the goal that is not yet a constructor. *)
Ltac split_match :=
  match goal with
  | |- context [match ?x with _ => _ end] =>
      first [ is_var x; destruct x | let H := fresh "Hcase" in destruct x eqn:H ]
  end.

Ltac run := repeat (cbn [fst snd repo_cache environ trace loader_calls] in *; try split_match).

(* ===================================================================== *)
(** ** The interpreter's operations on examples *)
(* ===================================================================== *)

Example split_on_three : split_on "/" "a/b/c" = ["a"; "b"; "c"].
Proof. reflexivity. Qed.

Example split_on_trailing : split_on "/" "octo/" = ["octo"; ""].
Proof. reflexivity. Qed.

Example split_item_no_separator :
  split_item (PyStr "octo") 1 = inl (IndexError "list index out of range").
Proof. reflexivity. Qed.

Example split_item_not_a_string :
  split_item (PyInt 7) 0 = inl (AttributeError "'int' object has no attribute 'split'").
Proof. reflexivity. Qed.

Example py_in_substring : py_in "repo" (PyStr "my repository") = inr true.
Proof. reflexivity. Qed.

Example py_in_list : py_in "repo" (PyList [PyInt 1; PyStr "repo"]) = inr true.
Proof. reflexivity. Qed.

Example missing_parameters_null : missing_parameters PyNone = inr true.
Proof. reflexivity. Qed.

Example missing_parameters_true :
  missing_parameters (PyBool true)
    = inl (TypeError "argument of type 'bool' is not iterable").
Proof. reflexivity. Qed.

Example cache_key_of_int : cache_key mock (PyInt (-7)) (PyStr "dev") = "-7:dev".
Proof. reflexivity. Qed.

(* ===================================================================== *)
(** ** The loader *)
(* ===================================================================== *)

Section LoaderFacts.

Context (E : Externals).
Implicit Types (w : world E) (repo_name branch : pyval).

Lemma load_docs_rest_store g token repo_name branch w :
  same_store E w (snd (load_docs_rest E g token repo_name branch w)).
Proof.
  unfold load_docs_rest, same_store. unfold_monad. run; auto.
Qed.

Lemma resolve_token_store github_token w :
  snd (resolve_token E github_token w) = w.
Proof.
  unfold resolve_token. unfold_monad. run; auto.
Qed.

Lemma resolve_token_spec github_token w :
  resolve_token E github_token w =
    match token_of E github_token w with
    | Some t => (inr t, w)
    | None => (inl (ValueError "GitHub token not found"), w)
    end.
Proof.
  unfold resolve_token, token_of. unfold_monad.
  destruct github_token as [t |]; [reflexivity |].
  destruct (environ w !! "GITHUB_TOKEN") as [s |]; [| reflexivity].
  by destruct (String.eqb s "").
Qed.

Lemma load_docs_try_store repo_name github_token branch w :
  same_store E w (snd (snd (load_docs_try E repo_name github_token branch w))).
Proof.
  unfold load_docs_try.
  pose proof (resolve_token_store github_token w) as Hr.
  destruct (resolve_token E github_token w) as [[e | token] w1];
    cbn [snd] in Hr; subst w1; [by unfold same_store |].
  unfold call, emit.
  destruct (Github_init E token) as [e | g]; [by unfold same_store |].
  cbn [snd].
  match goal with
  | |- same_store _ _ (snd (load_docs_rest E g token repo_name branch ?w0)) =>
      destruct (load_docs_rest_store g token repo_name branch w0) as (Hc & He & Hn)
  end.
  unfold same_store. by rewrite Hc, He, Hn.
Qed.

(** The loader never writes the cache or the environment, and counts
    itself once. *)
Lemma load_github_docs_store repo_name github_token branch w :
  repo_cache (snd (load_github_docs E repo_name github_token branch w))
    = repo_cache w /\
  environ (snd (load_github_docs E repo_name github_token branch w))
    = environ w /\
  loader_calls (snd (load_github_docs E repo_name github_token branch w))
    = S (loader_calls w).
Proof.
  unfold load_github_docs.
  destruct (load_docs_try_store repo_name github_token branch (tick w))
    as (Hc & He & Hn).
  destruct (load_docs_try E repo_name github_token branch (tick w))
    as [g [r w1]].
  cbn [snd] in Hc, He, Hn.
  destruct r as [e | r], g as [g |]; unfold_monad; cbn; auto.
Qed.

(** Whatever the [try] block did, leaving it with [g] unassigned makes the
    [finally] clause raise, and that exception is the caller's. *)
Lemma load_github_docs_unbound repo_name github_token branch w r w1 :
  load_docs_try E repo_name github_token branch (tick w) = (None, (r, w1)) ->
  fst (load_github_docs E repo_name github_token branch w) = inl unbound_g.
Proof.
  intros H. unfold load_github_docs. rewrite H.
  destruct r as [e | r]; unfold_monad; reflexivity.
Qed.

(** No token in the argument, none (or an empty one) in the environment:
    line 35 raises, the handler of line 71 runs, and line 76 raises again. *)
Lemma load_github_docs_token_missing repo_name branch w :
  str_truthy (environ w !! "GITHUB_TOKEN") = false ->
  load_github_docs E repo_name None branch w =
    (inl unbound_g,
     World E (repo_cache w) (environ w)
       (trace w ++ [EPrint E "Error loading repository: GitHub token not found";
                    EPrint E (format_exc E (ValueError "GitHub token not found"))])
       (S (loader_calls w))).
Proof.
  intros H. unfold load_github_docs, load_docs_try, resolve_token, load_docs_except.
  unfold_monad. cbn [environ tick].
  destruct (environ w !! "GITHUB_TOKEN") as [s |]; cbn in H.
  - destruct (String.eqb s ""); [| discriminate].
    cbn. by rewrite <- app_assoc.
  - cbn. by rewrite <- app_assoc.
Qed.

(** The constructor of line 38 raising leaves [g] unassigned as well. *)
Lemma load_github_docs_client_failure repo_name token branch w e :
  Github_init E token = inl e ->
  fst (load_github_docs E repo_name (Some token) branch w) = inl unbound_g.
Proof.
  intros H. eapply load_github_docs_unbound.
  unfold load_docs_try, resolve_token. unfold_monad. rewrite H. reflexivity.
Qed.

Lemma load_docs_rest_trace g token repo_name branch w :
  exists evs,
    trace (snd (load_docs_rest E g token repo_name branch w)) = (trace w ++ evs)%list.
Proof.
  unfold load_docs_rest. unfold_monad.
  run; first [ by exists []; rewrite app_nil_r
             | eexists; rewrite <- ?app_assoc; reflexivity ].
Qed.

(** The function once line 38 has bound [g]: the rest of the [try] block
    runs, an exception of it is printed and turned into [None], and [g] is
    closed last on either path. *)
Lemma load_github_docs_after_bind repo_name github_token branch w token g :
  token_of E github_token w = Some token ->
  Github_init E token = inr g ->
  load_github_docs E repo_name github_token branch w =
    match load_docs_rest E g token repo_name branch
            (World E (repo_cache w) (environ w) (trace w ++ [EGithub E token])
                     (S (loader_calls w))) with
    | (inl e, w2) =>
        (inr None,
         World E (repo_cache w2) (environ w2)
           (trace w2 ++ [EPrint E ("Error loading repository: " ++ exc_str e);
                         EPrint E (format_exc E e); EClose E g])
           (loader_calls w2))
    | (inr r, w2) =>
        (inr r,
         World E (repo_cache w2) (environ w2) (trace w2 ++ [EClose E g])
           (loader_calls w2))
    end.
Proof.
  intros Ht Hg. unfold load_github_docs, load_docs_try.
  rewrite resolve_token_spec.
  change (token_of E github_token (tick w)) with (token_of E github_token w).
  rewrite Ht. unfold call at 1. unfold emit at 1. rewrite Hg.
  cbn [tick repo_cache environ trace loader_calls].
  match goal with
  | |- context [load_docs_rest E g token repo_name branch ?w0] =>
      destruct (load_docs_rest E g token repo_name branch w0) as [[e | r] w2]
  end.
  - unfold load_docs_except. unfold_monad. cbn.
    by repeat (rewrite <- app_assoc; cbn [app]).
  - unfold_monad. reflexivity.
Qed.

(** Once line 38 has bound [g], every exit path of the function returns
    (an index or [None]) and ends by closing [g]. *)
Lemma load_github_docs_bound repo_name github_token branch w token g :
  token_of E github_token w = Some token ->
  Github_init E token = inr g ->
  exists r w' evs,
    load_github_docs E repo_name github_token branch w = (inr r, w') /\
    trace w' = (trace w ++ EGithub E token :: evs ++ [EClose E g])%list.
Proof.
  intros Ht Hg. rewrite (load_github_docs_after_bind _ _ _ _ _ _ Ht Hg).
  match goal with
  | |- context [load_docs_rest E g token repo_name branch ?w0] =>
      destruct (load_docs_rest_trace g token repo_name branch w0) as [evs Hevs];
      destruct (load_docs_rest E g token repo_name branch w0) as [[e | r] w2]
  end; cbn [snd trace] in Hevs.
  - exists None. eexists.
    exists (evs ++ [EPrint E ("Error loading repository: " ++ exc_str e);
                    EPrint E (format_exc E e)])%list.
    split; [reflexivity |]. cbn [trace].
    rewrite Hevs. by repeat (rewrite <- app_assoc; cbn [app]).
  - exists r. eexists. exists evs.
    split; [reflexivity |]. cbn [trace].
    rewrite Hevs. by repeat (rewrite <- app_assoc; cbn [app]).
Qed.

(** *** The split of lines 41-42 *)

Lemma split_on_length sep s : length (split_on sep s) = S (count_char sep s).
Proof.
  induction s as [| c s IH]; [reflexivity |].
  cbn [split_on count_char].
  destruct (Ascii.eqb c sep); cbn [length Nat.add].
  - by rewrite IH.
  - destruct (split_on sep s) as [| h t]; [discriminate IH | exact IH].
Qed.

(** Two separators or more: a first, a second, and at least one further
    segment. *)
Lemma split_on_segments sep s :
  2 <= count_char sep s ->
  exists owner repo rest,
    split_on sep s = owner :: repo :: rest /\ rest <> [].
Proof.
  intros H. pose proof (split_on_length sep s) as Hl.
  destruct (split_on sep s) as [| owner [| repo [| x rest]]]; cbn in Hl; try lia.
  exists owner, repo, (x :: rest). by split.
Qed.

(** Joining the segments with the separator gives the string back. *)
Lemma split_on_concat sep s :
  String.concat (String sep EmptyString) (split_on sep s) = s.
Proof.
  assert (forall x y l,
            String.concat (String sep EmptyString) (x :: y :: l)
            = x ++ String sep EmptyString
                ++ String.concat (String sep EmptyString) (y :: l)) as Hstep
    by reflexivity.
  induction s as [| c s IH]; [reflexivity |].
  pose proof (split_on_length sep s) as Hl.
  cbn [split_on]. destruct (Ascii.eqb_spec c sep) as [-> | Hne].
  - destruct (split_on sep s) as [| h t]; [discriminate Hl |].
    rewrite Hstep, IH. reflexivity.
  - destruct (split_on sep s) as [| h [| h' t]]; [discriminate Hl | |].
    + cbn [String.concat] in *. by rewrite IH.
    + rewrite Hstep in *. rewrite <- IH at 1. reflexivity.
Qed.

(** No segment holds the separator. *)
Lemma split_on_no_sep sep s :
  Forall (fun seg => count_char sep seg = 0) (split_on sep s).
Proof.
  induction s as [| c s IH]; [by repeat constructor |].
  pose proof (split_on_length sep s) as Hl.
  cbn [split_on]. destruct (Ascii.eqb c sep) eqn:Hc.
  - by constructor.
  - destruct (split_on sep s) as [| h t]; [discriminate Hl |].
    inversion IH as [| ? ? Hh Ht]; subst.
    constructor; [| exact Ht]. cbn [count_char]. by rewrite Hc, Hh.
Qed.

(** With both segments at hand, the first thing the rest of the [try]
    block does is the lookup of "owner/repo". *)
Lemma load_docs_rest_lookup g token s branch w owner repo :
  split_on "/" s !! 0 = Some owner ->
  split_on "/" s !! 1 = Some repo ->
  exists evs,
    trace (snd (load_docs_rest E g token (PyStr s) branch w))
      = (trace w ++ EGetRepo E g (owner ++ "/" ++ repo) :: evs)%list.
Proof.
  intros H0 H1. unfold load_docs_rest, split_item. unfold_monad.
  rewrite H0, H1.
  run; eexists; repeat (rewrite <- app_assoc; cbn [app]); reflexivity.
Qed.

End LoaderFacts.

(** C1, the code at the failing input.  [load_github_docs("octo/hello")]
    with no token argument, in a process whose environment has no
    [GITHUB_TOKEN]: the [ValueError] of line 35 is caught and printed, and
    then the [finally] clause reads the unassigned [g]; the call does not
    return [None], it raises [UnboundLocalError] to its caller, and no client
    is closed. *)
Theorem load_github_docs_without_token (E : Externals) :
  load_github_docs E (PyStr "octo/hello") None (PyStr "main") (empty_world E) =
    (inl unbound_g,
     World E ∅ ∅
       [EPrint E "Error loading repository: GitHub token not found";
        EPrint E (format_exc E (ValueError "GitHub token not found"))]
       1).
Proof.
  rewrite load_github_docs_token_missing; [reflexivity |].
  cbn. by rewrite lookup_empty.
Qed.

(** C10.  A repo_name with two or more '/' passes the split of lines 41-42:
    repo_name is owner, '/', name, '/' and the remaining segments joined by
    '/', with no '/' inside owner or name; the first segment is taken as the
    owner, the second as the repository name, the further segments are
    dropped, and the call goes on to look up "owner/name" (given that a
    token is at hand and the client of line 38 was built, so that the split
    is reached). *)
Theorem load_github_docs_extra_segments (E : Externals) (s : string)
    (github_token : option string) (branch : pyval) (w : world E)
    (token : string) (g : Github E) :
  2 <= count_char "/" s ->
  token_of E github_token w = Some token ->
  Github_init E token = inr g ->
  exists owner repo rest evs,
    split_on "/" s = owner :: repo :: rest /\ rest <> [] /\
    s = owner ++ "/" ++ repo ++ "/" ++ String.concat "/" rest /\
    count_char "/" owner = 0 /\
    count_char "/" repo = 0 /\
    split_item (PyStr s) 0 = inr owner /\
    split_item (PyStr s) 1 = inr repo /\
    trace (snd (load_github_docs E (PyStr s) github_token branch w))
      = (trace w ++ EGithub E token :: EGetRepo E g (owner ++ "/" ++ repo) :: evs)%list.
Proof.
  intros Hsep Ht Hg.
  destruct (split_on_segments "/" s Hsep) as (owner & repo & rest & Hs & Hrest).
  assert (split_on "/" s !! 0 = Some owner) as H0 by (by rewrite Hs).
  assert (split_on "/" s !! 1 = Some repo) as H1 by (by rewrite Hs).
  pose proof (split_on_concat "/" s) as Hjoin. rewrite Hs in Hjoin.
  pose proof (split_on_no_sep "/" s) as Hno. rewrite Hs in Hno.
  apply Forall_cons in Hno as [Hno_owner Hno'].
  apply Forall_cons in Hno' as [Hno_repo _].
  assert (s = owner ++ "/" ++ repo ++ "/" ++ String.concat "/" rest) as Hshape.
  { destruct rest as [| x rest]; [done |]. by rewrite <- Hjoin. }
  rewrite (load_github_docs_after_bind E _ _ _ _ _ _ Ht Hg).
  match goal with
  | |- context [load_docs_rest E g token (PyStr s) branch ?w0] =>
      destruct (load_docs_rest_lookup E g token s branch w0 owner repo H0 H1)
        as [evs Hevs];
      destruct (load_docs_rest E g token (PyStr s) branch w0) as [[e | r] w2]
  end; cbn [snd trace] in Hevs.
  - exists owner, repo, rest.
    exists (evs ++ [EPrint E ("Error loading repository: " ++ exc_str e);
                    EPrint E (format_exc E e); EClose E g])%list.
    unfold split_item. rewrite H0, H1. repeat split; try done.
    cbn [snd trace]. rewrite Hevs. by repeat (rewrite <- app_assoc; cbn [app]).
  - exists owner, repo, rest, (evs ++ [EClose E g])%list.
    unfold split_item. rewrite H0, H1. repeat split; try done.
    cbn [snd trace]. rewrite Hevs. by repeat (rewrite <- app_assoc; cbn [app]).
Qed.

Lemma load_github_docs_extra_segments_witness :
  2 <= count_char "/" "a/b/c" /\
  split_on "/" "a/b/c" = ["a"; "b"; "c"] /\
  split_item (PyStr "a/b/c") 0 = inr "a" /\
  split_item (PyStr "a/b/c") 1 = inr "b" /\
  exists evs,
    trace (snd (load_github_docs mock (PyStr "a/b/c") None (PyStr "main") configured))
      = (trace configured ++
         EGithub mock "ghp_token" :: EGetRepo mock "ghp_token" "a/b" :: evs)%list.
Proof.
  split; [vm_compute; lia |].
  destruct (load_github_docs_extra_segments mock "a/b/c" None (PyStr "main")
              configured "ghp_token" "ghp_token")
    as (owner & repo & rest & evs & Hs & _ & _ & _ & _ & H0 & H1 & Htrace).
  - vm_compute; lia.
  - vm_compute; reflexivity.
  - reflexivity.
  - assert (owner = "a" /\ repo = "b" /\ rest = ["c"]) as (-> & -> & ->).
    { vm_compute in Hs. by injection Hs as <- <- <-. }
    split; [reflexivity |]. split; [exact H0 |]. split; [exact H1 |].
    exists evs. exact Htrace.
Defined.

(* ===================================================================== *)
(** ** The index cache *)
(* ===================================================================== *)

Section CacheFacts.

Context (E : Externals).
Implicit Types (w : world E) (repo_name branch : pyval).

(** A hit answers from the mapping and touches nothing. *)
Lemma get_or_create_index_hit repo_name branch w idx :
  repo_cache w !! cache_key E repo_name branch = Some idx ->
  get_or_create_index E repo_name branch w = (inr (Some idx), w).
Proof.
  intros H. unfold get_or_create_index. unfold_monad.
  rewrite H. cbn. by rewrite H.
Qed.

(** A miss runs the loader once and stores what it returned when that is a
    true value; an exception of the loader passes through. *)
Lemma get_or_create_index_miss repo_name branch w r w1 :
  repo_cache w !! cache_key E repo_name branch = None ->
  load_github_docs E repo_name None branch w = (r, w1) ->
  get_or_create_index E repo_name branch w =
    match r with
    | inl e => (inl e, w1)
    | inr (Some i) =>
        if index_truthy E i
        then (inr (Some i),
              World E (<[cache_key E repo_name branch := i]> (repo_cache w1))
                (environ w1) (trace w1) (loader_calls w1))
        else (inr None, w1)
    | inr None => (inr None, w1)
    end.
Proof.
  intros Hmiss Hload.
  pose proof (load_github_docs_store E repo_name None branch w) as (Hc & _ & _).
  rewrite Hload in Hc. cbn [snd] in Hc.
  unfold get_or_create_index. unfold_monad.
  rewrite Hmiss, Hload.
  destruct r as [e | [i |]]; [reflexivity | |].
  - destruct (index_truthy E i); cbn [repo_cache].
    + by rewrite lookup_insert_eq.
    + by rewrite Hc, Hmiss.
  - by rewrite Hc, Hmiss.
Qed.

(** Only the entry at [cache_key] can change, and the call answers with
    that entry. *)
Lemma get_or_create_index_key repo_name branch w :
  let out := get_or_create_index E repo_name branch w in
  (forall k, k <> cache_key E repo_name branch ->
             repo_cache (snd out) !! k = repo_cache w !! k) /\
  (forall v, fst out = inr v ->
             v = repo_cache (snd out) !! cache_key E repo_name branch).
Proof.
  cbn zeta.
  destruct (repo_cache w !! cache_key E repo_name branch) as [idx |] eqn:Hk.
  - rewrite (get_or_create_index_hit _ _ _ _ Hk). cbn [fst snd].
    split; [done | intros v [= <-]; done].
  - pose proof (load_github_docs_store E repo_name None branch w) as (Hc & _ & _).
    destruct (load_github_docs E repo_name None branch w) as [r w1] eqn:Hl.
    cbn [snd] in Hc.
    rewrite (get_or_create_index_miss _ _ _ _ _ Hk Hl).
    destruct r as [e | [i |]]; cbn [fst snd].
    + split; [by intros; rewrite Hc | discriminate].
    + destruct (index_truthy E i); cbn [fst snd repo_cache].
      * split; [by intros; rewrite lookup_insert_ne, ?Hc
               | by intros v [= <-]; rewrite lookup_insert_eq].
      * split; [by intros; rewrite Hc | by intros v [= <-]; rewrite Hc, Hk].
    + split; [by intros; rewrite Hc | by intros v [= <-]; rewrite Hc, Hk].
Qed.

End CacheFacts.

(** C2.  When a call of [get_or_create_index] leaves an index in the cache
    under the key of (repo_name, branch), that call returned this very
    index, and a second call with the same arguments returns it again
    without entering [load_github_docs]: the whole state, the loader's call
    counter included, is unchanged. *)
Theorem get_or_create_index_second_call (E : Externals)
    (repo_name branch : pyval) (w0 w1 : world E)
    (r1 : result (option (VectorStoreIndex E))) (idx : VectorStoreIndex E) :
  get_or_create_index E repo_name branch w0 = (r1, w1) ->
  repo_cache w1 !! cache_key E repo_name branch = Some idx ->
  r1 = inr (Some idx) /\
  get_or_create_index E repo_name branch w1 = (inr (Some idx), w1) /\
  loader_calls (snd (get_or_create_index E repo_name branch w1)) = loader_calls w1.
Proof.
  intros Hfirst Hstored.
  pose proof (get_or_create_index_hit E _ _ _ _ Hstored) as Hsecond.
  split; [| split; [exact Hsecond | by rewrite Hsecond]].
  destruct (get_or_create_index_key E repo_name branch w0) as [_ Hret].
  rewrite Hfirst in Hret. cbn [fst snd] in Hret.
  destruct r1 as [e | v].
  - destruct (repo_cache w0 !! cache_key E repo_name branch) as [i |] eqn:Hk.
    + rewrite (get_or_create_index_hit E _ _ _ _ Hk) in Hfirst. discriminate.
    + pose proof (load_github_docs_store E repo_name None branch w0) as (Hc & _ & _).
      destruct (load_github_docs E repo_name None branch w0) as [r w'] eqn:Hl.
      rewrite (get_or_create_index_miss E _ _ _ _ _ Hk Hl) in Hfirst.
      cbn [snd] in Hc.
      destruct r as [e' | [i |]]; try discriminate.
      * injection Hfirst as _ ->. congruence.
      * destruct (index_truthy E i); discriminate.
  - rewrite (Hret v eq_refl), Hstored. reflexivity.
Qed.

Lemma get_or_create_index_second_call_witness :
  let first := get_or_create_index mock (PyStr "octo/hello") (PyStr "main") configured in
  first = (inr (Some ["README of octo/hello"]), snd first) /\
  repo_cache (snd first) !! "octo/hello:main" = Some ["README of octo/hello"] /\
  get_or_create_index mock (PyStr "octo/hello") (PyStr "main") (snd first)
    = (inr (Some ["README of octo/hello"]), snd first) /\
  loader_calls (snd first) = 1.
Proof.
  cbv zeta.
  split; [vm_compute; reflexivity |].
  split; [vm_compute; reflexivity |].
  split; [| vm_compute; reflexivity].
  apply (get_or_create_index_second_call mock (PyStr "octo/hello") (PyStr "main")
           configured _ (inr (Some ["README of octo/hello"])) ["README of octo/hello"]).
  - vm_compute; reflexivity.
  - vm_compute; reflexivity.
Defined.

(* ===================================================================== *)
(** ** The query handler *)
(* ===================================================================== *)

Section HandlerFacts.

Context (E : Externals).
Implicit Types (w : world E) (d : gmap string pyval) (data : pyval).

Lemma dict_truthy d k v : d !! k = Some v -> truthy (PyDict d) = true.
Proof.
  intros H. cbn. case_bool_decide as Hd; [| reflexivity].
  subst d. by rewrite lookup_empty in H.
Qed.

Lemma missing_parameters_falsy data :
  truthy data = false -> missing_parameters data = inr true.
Proof. intros H. unfold missing_parameters. by rewrite H. Qed.

Lemma missing_parameters_lacking d :
  d !! "repo" = None \/ d !! "query" = None ->
  missing_parameters (PyDict d) = inr true.
Proof.
  intros H. unfold missing_parameters.
  destruct (truthy (PyDict d)); [| reflexivity]. cbn.
  destruct (d !! "repo") as [r |] eqn:Hr; cbn; [| reflexivity].
  destruct H as [H | H]; [discriminate |]. by rewrite H.
Qed.

Lemma missing_parameters_valid d repo query_text :
  d !! "repo" = Some repo -> d !! "query" = Some query_text ->
  missing_parameters (PyDict d) = inr false.
Proof.
  intros Hr Hq. unfold missing_parameters.
  rewrite (dict_truthy _ _ _ Hr). cbn. by rewrite Hr, Hq.
Qed.

(** A body that passes line 106 as a dict goes on to the cache with the
    fields it carries and, for the branch, "main" when it carries none. *)
Lemma query_docs_try_valid request d repo query_text w :
  get_json E request = inr (PyDict d) ->
  d !! "repo" = Some repo -> d !! "query" = Some query_text ->
  query_docs_try E request w =
    bind (get_or_create_index E repo (default (PyStr "main") (d !! "branch")))
         (fun index => query_docs_answer E index query_text) w.
Proof.
  intros Hj Hr Hq. unfold query_docs_try.
  unfold bind at 1. unfold lift at 1. rewrite Hj.
  unfold bind at 1. unfold lift at 1.
  rewrite (missing_parameters_valid _ _ _ Hr Hq).
  unfold bind at 1. unfold lift at 1. cbn [py_getitem]. rewrite Hr.
  unfold bind at 1. unfold lift at 1. rewrite Hq.
  unfold bind at 1. unfold lift at 1. cbn [py_get]. reflexivity.
Qed.

(** X15.  The guard of line 106 as far as it works: a false body (none, null,
    an empty container, zero) and a dict without one of the two fields
    are answered 400 before anything else is touched. *)
Lemma query_docs_rejected request data w :
  get_json E request = inr data ->
  truthy data = false \/
    (exists d, data = PyDict d /\ (d !! "repo" = None \/ d !! "query" = None)) ->
  query_docs E request w =
    (inr (Http 400 (PyDict {[ "error" := PyStr "Missing required parameters" ]})), w).
Proof.
  intros Hj Hbad.
  assert (missing_parameters data = inr true) as Hm.
  { destruct Hbad as [H | (d & -> & H)];
      [by apply missing_parameters_falsy | by apply missing_parameters_lacking]. }
  unfold query_docs, query_docs_try. unfold_monad. by rewrite Hj, Hm.
Qed.

(** An exception of the [try] block becomes the 500 response of line 138;
    a response of the block is the handler's response. *)
Lemma query_docs_outcome request w :
  query_docs E request w =
    match query_docs_try E request w with
    | (inl e, w') => (inr (Http 500 (error_body (exc_str e))), w')
    | (inr response, w') => (inr response, w')
    end.
Proof.
  unfold query_docs, try_except.
  by destruct (query_docs_try E request w) as [[e | r] w'].
Qed.

End HandlerFacts.

(** C3.  When the key of (repo_name, branch) is not in the cache and
    [load_github_docs] returns [None], [get_or_create_index] returns [None]
    and leaves the cache mapping as it was; and a [POST /query] whose body
    carries this repo and branch is answered 500 with the body
    [{"error": "Failed to load repository"}]. *)
Theorem load_failure_is_500 (E : Externals) (repo_name branch : pyval)
    (w w1 : world E) :
  repo_cache w !! cache_key E repo_name branch = None ->
  load_github_docs E repo_name None branch w = (inr None, w1) ->
  get_or_create_index E repo_name branch w = (inr None, w1) /\
  repo_cache w1 = repo_cache w /\
  forall (request : Request E) (d : gmap string pyval) (query_text : pyval),
    get_json E request = inr (PyDict d) ->
    d !! "repo" = Some repo_name ->
    d !! "query" = Some query_text ->
    default (PyStr "main") (d !! "branch") = branch ->
    query_docs E request w =
      (inr (Http 500 (PyDict {[ "error" := PyStr "Failed to load repository" ]})), w1).
Proof.
  intros Hmiss Hload.
  pose proof (get_or_create_index_miss E _ _ _ _ _ Hmiss Hload) as Hget.
  cbv beta iota in Hget.
  pose proof (load_github_docs_store E repo_name None branch w) as (Hc & _ & _).
  rewrite Hload in Hc. cbn [snd] in Hc.
  repeat split; [exact Hget | exact Hc |].
  intros request d query_text Hj Hr Hq Hb.
  rewrite query_docs_outcome, (query_docs_try_valid E _ _ _ _ _ Hj Hr Hq), Hb.
  unfold bind. rewrite Hget. reflexivity.
Qed.

Lemma load_failure_is_500_witness :
  let loaded := load_github_docs mock (PyStr "octo/empty") None (PyStr "main") configured in
  repo_cache configured !! "octo/empty:main" = None /\
  loaded = (inr None, snd loaded) /\
  get_or_create_index mock (PyStr "octo/empty") (PyStr "main") configured
    = (inr None, snd loaded) /\
  query_docs mock empty_request configured
    = (inr (Http 500 (PyDict {[ "error" := PyStr "Failed to load repository" ]})),
       snd loaded).
Proof.
  cbv zeta.
  split; [vm_compute; reflexivity |].
  split; [vm_compute; reflexivity |].
  destruct (load_failure_is_500 mock (PyStr "octo/empty") (PyStr "main") configured
              (snd (load_github_docs mock (PyStr "octo/empty") None (PyStr "main")
                      configured)))
    as (Hget & _ & Hquery).
  - vm_compute; reflexivity.
  - vm_compute; reflexivity.
  - split; [exact Hget |].
    apply (Hquery empty_request
             {[ "repo" := PyStr "octo/empty"; "query" := PyStr "anything?" ]}
             (PyStr "anything?")); vm_compute; reflexivity.
Defined.

(** C4, the code at the failing input.  A [POST /query] whose JSON body is
    a number other than zero has neither a 'repo' nor a 'query' field, yet
    it is not answered 400: the test ['repo' not in data] of line 106 itself
    raises [TypeError], which the handler of line 137 turns into a 500 that
    carries the interpreter's message.  The cache and the loader are not
    touched. *)
Theorem query_docs_number_body (E : Externals) (request : Request E) (z : Z)
    (w : world E) :
  get_json E request = inr (PyInt z) ->
  z <> 0%Z ->
  query_docs E request w =
    (inr (Http 500 (error_body "argument of type 'int' is not iterable")), w).
Proof.
  intros Hj Hz. rewrite query_docs_outcome.
  unfold query_docs_try, missing_parameters. unfold_monad. rewrite Hj. cbn.
  destruct (Z.eqb_spec z 0) as [-> | _]; [done | reflexivity].
Qed.

Lemma query_docs_number_body_witness :
  query_docs mock (inr (PyInt 5)) configured =
    (inr (Http 500 (error_body "argument of type 'int' is not iterable")), configured).
Proof.
  apply (query_docs_number_body mock (inr (PyInt 5)) 5 configured);
    [reflexivity | discriminate].
Defined.

(** C5.  A [POST /query] whose body carries 'repo' and 'query', for which
    [get_or_create_index] hands back a (true) index and the three calls to
    the query machinery return: the LLM is built for the model
    "gpt-3.5-turbo", the engine is built over the index with
    [similarity_top_k = 3], the query text is run through it, and the
    answer is 200 with [response] the string form of the result and
    [sources] the texts of its source nodes in their order. *)
Theorem query_docs_success (E : Externals) (request : Request E)
    (d : gmap string pyval) (repo query_text : pyval) (w w1 : world E)
    (idx : VectorStoreIndex E) (llm : LLM E) (engine : QueryEngine E)
    (response : Response E) :
  get_json E request = inr (PyDict d) ->
  d !! "repo" = Some repo ->
  d !! "query" = Some query_text ->
  get_or_create_index E repo (default (PyStr "main") (d !! "branch")) w
    = (inr (Some idx), w1) ->
  index_truthy E idx = true ->
  OpenAI E "gpt-3.5-turbo" = inr llm ->
  as_query_engine E idx 3 llm = inr engine ->
  query E engine query_text = inr response ->
  query_docs E request w =
    (inr (Http 200 (PyDict
            {[ "response" := PyStr (Response_str E response);
               "sources" := PyList (map (fun node => PyStr (node_text E node))
                                        (source_nodes E response)) ]})),
     World E (repo_cache w1) (environ w1)
       (trace w1 ++ [EOpenAI E "gpt-3.5-turbo"; EAsQueryEngine E idx 3 llm;
                     EQuery E engine query_text])
       (loader_calls w1)).
Proof.
  intros Hj Hr Hq Hget Htrue Hllm Hengine Hquery.
  rewrite query_docs_outcome, (query_docs_try_valid E _ _ _ _ _ Hj Hr Hq).
  unfold bind at 1. rewrite Hget.
  unfold query_docs_answer. rewrite Htrue.
  unfold_monad. rewrite Hllm, Hengine, Hquery.
  cbn [repo_cache environ trace loader_calls].
  by repeat (rewrite <- app_assoc; cbn [app]).
Qed.

Lemma query_docs_success_witness :
  fst (query_docs mock hello_request configured) =
    inr (Http 200 (PyDict
           {[ "response" := PyStr "a fixed answer";
              "sources" := PyList [PyStr "first passage"; PyStr "second passage"] ]})).
Proof.
  rewrite (query_docs_success mock hello_request
             {[ "repo" := PyStr "octo/hello"; "query" := PyStr "what is this?" ]}
             (PyStr "octo/hello") (PyStr "what is this?") configured
             (snd (get_or_create_index mock (PyStr "octo/hello") (PyStr "main") configured))
             ["README of octo/hello"] "gpt-3.5-turbo"
             (["README of octo/hello"], 3%Z, "gpt-3.5-turbo")
             ("a fixed answer", ["first passage"; "second passage"]));
    try (vm_compute; reflexivity).
Defined.

(** *** Where the exceptions of the handler come from *)

Section HandlerExceptions.

Context (E : Externals).
Implicit Types (w : world E) (d : gmap string pyval).

(** [request.get_json()] raising. *)
Lemma query_docs_json_raises request w e :
  get_json E request = inl e ->
  query_docs E request w = (inr (Http 500 (error_body (exc_str e))), w).
Proof.
  intros H. rewrite query_docs_outcome. unfold query_docs_try. unfold_monad.
  by rewrite H.
Qed.

(** The index lookup raising: what [load_github_docs] lets through. *)
Lemma query_docs_index_raises request d repo query_text w w1 e :
  get_json E request = inr (PyDict d) ->
  d !! "repo" = Some repo -> d !! "query" = Some query_text ->
  get_or_create_index E repo (default (PyStr "main") (d !! "branch")) w
    = (inl e, w1) ->
  query_docs E request w = (inr (Http 500 (error_body (exc_str e))), w1).
Proof.
  intros Hj Hr Hq Hget.
  rewrite query_docs_outcome, (query_docs_try_valid E _ _ _ _ _ Hj Hr Hq).
  unfold bind. by rewrite Hget.
Qed.

(** The construction of the LLM or of the query engine raising. *)
Lemma query_docs_engine_raises request d repo query_text w w1 idx e :
  get_json E request = inr (PyDict d) ->
  d !! "repo" = Some repo -> d !! "query" = Some query_text ->
  get_or_create_index E repo (default (PyStr "main") (d !! "branch")) w
    = (inr (Some idx), w1) ->
  index_truthy E idx = true ->
  OpenAI E "gpt-3.5-turbo" = inl e \/
    (exists llm, OpenAI E "gpt-3.5-turbo" = inr llm /\
                 as_query_engine E idx 3 llm = inl e) ->
  exists w2,
    query_docs E request w = (inr (Http 500 (error_body (exc_str e))), w2).
Proof.
  intros Hj Hr Hq Hget Htrue Hfail.
  rewrite query_docs_outcome, (query_docs_try_valid E _ _ _ _ _ Hj Hr Hq).
  unfold bind at 1. rewrite Hget. unfold query_docs_answer. rewrite Htrue.
  unfold_monad.
  destruct Hfail as [H | (llm & Hllm & H)].
  - rewrite H. by eexists.
  - rewrite Hllm, H. by eexists.
Qed.

(** The execution of the query raising. *)
Lemma query_docs_query_raises request d repo query_text w w1 idx llm engine e :
  get_json E request = inr (PyDict d) ->
  d !! "repo" = Some repo -> d !! "query" = Some query_text ->
  get_or_create_index E repo (default (PyStr "main") (d !! "branch")) w
    = (inr (Some idx), w1) ->
  index_truthy E idx = true ->
  OpenAI E "gpt-3.5-turbo" = inr llm ->
  as_query_engine E idx 3 llm = inr engine ->
  query E engine query_text = inl e ->
  exists w2,
    query_docs E request w = (inr (Http 500 (error_body (exc_str e))), w2).
Proof.
  intros Hj Hr Hq Hget Htrue Hllm Hengine Hquery.
  rewrite query_docs_outcome, (query_docs_try_valid E _ _ _ _ _ Hj Hr Hq).
  unfold bind at 1. rewrite Hget. unfold query_docs_answer. rewrite Htrue.
  unfold_monad. rewrite Hllm, Hengine, Hquery. by eexists.
Qed.

End HandlerExceptions.

(** C6.  Whatever exception leaves the [try] block of the [POST /query]
    handler, the handler answers 500 with the body [{"error": str(e)}]: the
    message of that exception, not a fixed text.  In particular, for a body
    with 'repo' and 'query': an exception of the index lookup, of the
    construction of the LLM or of the query engine, and of the execution of
    the query is answered so, each with its own message. *)
Theorem query_docs_exception (E : Externals) (request : Request E)
    (w w' : world E) (e : exn) :
  query_docs_try E request w = (inl e, w') ->
  query_docs E request w =
    (inr (Http 500 (PyDict {[ "error" := PyStr (exc_str e) ]})), w') /\
  forall (d : gmap string pyval) (repo query_text : pyval) (e0 : exn),
    get_json E request = inr (PyDict d) ->
    d !! "repo" = Some repo ->
    d !! "query" = Some query_text ->
    (forall w1,
       get_or_create_index E repo (default (PyStr "main") (d !! "branch")) w
         = (inl e0, w1) ->
       query_docs E request w =
         (inr (Http 500 (PyDict {[ "error" := PyStr (exc_str e0) ]})), w1)) /\
    (forall w1 idx,
       get_or_create_index E repo (default (PyStr "main") (d !! "branch")) w
         = (inr (Some idx), w1) ->
       index_truthy E idx = true ->
       OpenAI E "gpt-3.5-turbo" = inl e0 \/
       (exists llm,
          OpenAI E "gpt-3.5-turbo" = inr llm /\
          (as_query_engine E idx 3 llm = inl e0 \/
           exists engine,
             as_query_engine E idx 3 llm = inr engine /\
             query E engine query_text = inl e0)) ->
       exists w2,
         query_docs E request w =
           (inr (Http 500 (PyDict {[ "error" := PyStr (exc_str e0) ]})), w2)).
Proof.
  intros H. split.
  - rewrite query_docs_outcome. rewrite H. reflexivity.
  - intros d repo query_text e0 Hj Hr Hq. split.
    + intros w1 Hget.
      exact (query_docs_index_raises E request d repo query_text w w1 e0
               Hj Hr Hq Hget).
    + intros w1 idx Hget Htrue
        [Hllm | (llm & Hllm & [Hengine | (engine & Hengine & Hquery)])].
      * exact (query_docs_engine_raises E request d repo query_text w w1 idx e0
                 Hj Hr Hq Hget Htrue (or_introl Hllm)).
      * exact (query_docs_engine_raises E request d repo query_text w w1 idx e0
                 Hj Hr Hq Hget Htrue
                 (or_intror (ex_intro _ llm (conj Hllm Hengine)))).
      * exact (query_docs_query_raises E request d repo query_text w w1 idx llm
                 engine e0 Hj Hr Hq Hget Htrue Hllm Hengine Hquery).
Qed.

Lemma query_docs_exception_witness :
  fst (query_docs_try mock hello_request (empty_world mock)) = inl unbound_g /\
  fst (query_docs mock hello_request (empty_world mock)) =
    inr (Http 500 (PyDict {[ "error" := PyStr
      "cannot access local variable 'g' where it is not associated with a value" ]})).
Proof.
  split; [vm_compute; reflexivity |].
  rewrite (proj1 (query_docs_exception mock hello_request (empty_world mock)
             (snd (query_docs_try mock hello_request (empty_world mock)))
             unbound_g ltac:(vm_compute; reflexivity))).
  reflexivity.
Defined.



(** C8.  [GET /health] answers 200 with the body [{"status": "healthy"}]
    in every state, consults nothing and leaves the state (cache,
    environment, calls made) exactly as it was. *)
Theorem health_check_always (E : Externals) (w : world E) :
  health_check E w = (inr (Http 200 (PyDict {[ "status" := PyStr "healthy" ]})), w).
Proof.
  unfold health_check, jsonify, ret. reflexivity.
Qed.


(** C9.  At startup, when [GITHUB_TOKEN] or [OPENAI_API_KEY] is not set,
    the main block raises a [ValueError] whose message lists the variables
    that are missing, every unset one among them, and [app.run] is not
    reached: the state, its record of calls included, is unchanged. *)
Theorem main_missing_variable (E : Externals) (w : world E) :
  environ w !! "GITHUB_TOKEN" = None \/ environ w !! "OPENAI_API_KEY" = None ->
  missing_vars E w <> [] /\
  (forall var, In var required_vars -> environ w !! var = None ->
               In var (missing_vars E w)) /\
  main E w =
    (inl (ValueError ("Missing required environment variables: "
                      ++ String.concat ", " (missing_vars E w))), w).
Proof.
  intros Hunset.
  assert (forall var, In var required_vars -> environ w !! var = None ->
                      In var (missing_vars E w)) as Hin.
  { intros var Hreq Hvar. unfold missing_vars. apply filter_In.
    split; [exact Hreq | by rewrite Hvar]. }
  assert (missing_vars E w <> []) as Hne.
  { destruct Hunset as [H | H].
    - pose proof (Hin "GITHUB_TOKEN" ltac:(cbn; auto) H) as Hm.
      intros Heq. by rewrite Heq in Hm.
    - pose proof (Hin "OPENAI_API_KEY" ltac:(cbn; auto) H) as Hm.
      intros Heq. by rewrite Heq in Hm. }
  repeat split; [exact Hne | exact Hin |].
  unfold main. destruct (missing_vars E w); [done | reflexivity].
Qed.

Lemma main_missing_variable_witness :
  environ (World mock ∅ {[ "GITHUB_TOKEN" := "ghp_token" ]} [] 0) !! "OPENAI_API_KEY"
    = None /\
  main mock (World mock ∅ {[ "GITHUB_TOKEN" := "ghp_token" ]} [] 0) =
    (inl (ValueError "Missing required environment variables: OPENAI_API_KEY"),
     World mock ∅ {[ "GITHUB_TOKEN" := "ghp_token" ]} [] 0).
Proof.
  split; [vm_compute; reflexivity |].
  destruct (main_missing_variable mock
              (World mock ∅ {[ "GITHUB_TOKEN" := "ghp_token" ]} [] 0))
    as (_ & _ & Hmain).
  - right. vm_compute; reflexivity.
  - rewrite Hmain. vm_compute; reflexivity.
Defined.

(* ===================================================================== *)
(** ** Further properties of the loader *)
(* ===================================================================== *)

Section LoaderMore.

Context (E : Externals).
Implicit Types (w : world E) (repo_name branch : pyval).

(** An event other than the closing of a client. *)
Definition not_close (ev : event E) : Prop := forall g, ev <> EClose E g.

(** The [try] block itself never closes anything. *)
Lemma load_docs_rest_events g token repo_name branch w :
  exists evs,
    trace (snd (load_docs_rest E g token repo_name branch w))
      = (trace w ++ evs)%list /\
    Forall not_close evs.
Proof.
  unfold load_docs_rest. unfold_monad.
  run;
    (first [ exists []; split; [by rewrite app_nil_r | by constructor]
           | eexists; split;
             [ repeat (rewrite <- app_assoc; cbn [app]); reflexivity
             | repeat (constructor; [intros g' Hg'; discriminate Hg' |]);
               constructor ] ]).
Qed.

Lemma split_on_first sep s : exists seg, split_on sep s !! 0 = Some seg.
Proof.
  pose proof (split_on_length sep s) as Hl.
  destruct (split_on sep s) as [| seg t]; [discriminate Hl | by exists seg].
Qed.

(** The second index read fails only together with, or after, the first:
    on a value that is no string both raise the same [AttributeError]. *)
Lemma split_item_second_fails repo_name e :
  split_item repo_name 1 = inl e ->
  split_item repo_name 0 = inl e \/ exists owner, split_item repo_name 0 = inr owner.
Proof.
  destruct repo_name; cbn; try (intros [= <-]; by left).
  intros _. right. destruct (split_on_first "/" s) as [seg ->]. by exists seg.
Qed.

(** The outcome of the rest of the [try] block when the split raises. *)
Lemma load_docs_rest_split_fails g token repo_name branch w e :
  split_item repo_name 1 = inl e ->
  load_docs_rest E g token repo_name branch w = (inl e, w).
Proof.
  intros H1. unfold load_docs_rest. unfold_monad.
  destruct (split_item_second_fails _ _ H1) as [H0 | [owner H0]]; rewrite H0.
  - reflexivity.
  - by rewrite H1.
Qed.

(** The calls behind a returned index, first to last. *)
Definition load_chain (repo_name : pyval) (github_token : option string)
    (branch : pyval) (w : world E) (index : VectorStoreIndex E) : Prop :=
  exists token g owner repo repository branch_ref github_client reader documents,
    token_of E github_token w = Some token /\
    Github_init E token = inr g /\
    split_item repo_name 0 = inr owner /\
    split_item repo_name 1 = inr repo /\
    get_repo E g (owner ++ "/" ++ repo) = inr repository /\
    get_branch E repository branch = inr branch_ref /\
    GithubClient_init E token = inr github_client /\
    GithubRepositoryReader_init E github_client owner repo true = inr reader /\
    load_data E reader (commit_sha E branch_ref) = inr documents /\
    documents <> [] /\
    from_documents E documents true = inr index.

Lemma load_docs_rest_some g token repo_name branch w index :
  fst (load_docs_rest E g token repo_name branch w) = inr (Some index) <->
  exists owner repo repository branch_ref github_client reader documents,
    split_item repo_name 0 = inr owner /\
    split_item repo_name 1 = inr repo /\
    get_repo E g (owner ++ "/" ++ repo) = inr repository /\
    get_branch E repository branch = inr branch_ref /\
    GithubClient_init E token = inr github_client /\
    GithubRepositoryReader_init E github_client owner repo true = inr reader /\
    load_data E reader (commit_sha E branch_ref) = inr documents /\
    documents <> [] /\
    from_documents E documents true = inr index.
Proof.
  unfold load_docs_rest. unfold_monad. split.
  - destruct (split_item repo_name 0) as [e | owner]; [discriminate |].
    destruct (split_item repo_name 1) as [e | repo]; [discriminate |].
    destruct (get_repo E g (owner ++ "/" ++ repo)) as [e | repository] eqn:Hrepo;
      [discriminate |].
    destruct (get_branch E repository branch) as [e | branch_ref] eqn:Hbranch;
      [discriminate |].
    destruct (GithubClient_init E token) as [e | github_client] eqn:Hclient;
      [discriminate |].
    destruct (GithubRepositoryReader_init E github_client owner repo true)
      as [e | reader] eqn:Hreader; [discriminate |].
    destruct (load_data E reader (commit_sha E branch_ref)) as [e | documents] eqn:Hdocs;
      [discriminate |].
    destruct documents as [| doc docs]; [discriminate |].
    destruct (from_documents E (doc :: docs) true) as [e | i] eqn:Hindex;
      [discriminate |].
    cbn. intros [= <-].
    exists owner, repo, repository, branch_ref, github_client, reader, (doc :: docs).
    by repeat split.
  - intros (owner & repo & repository & branch_ref & github_client & reader
            & documents & H0 & H1 & Hrepo & Hbranch & Hclient & Hreader & Hdocs
            & Hne & Hindex).
    rewrite H0, H1, Hrepo, Hbranch, Hclient, Hreader, Hdocs.
    destruct documents as [| doc docs]; [done |]. by rewrite Hindex.
Qed.

(** Without a token the call raises, whichever way the token is missing. *)
Lemma load_github_docs_no_token repo_name github_token branch w :
  token_of E github_token w = None ->
  fst (load_github_docs E repo_name github_token branch w) = inl unbound_g.
Proof.
  intros Ht. eapply load_github_docs_unbound.
  unfold load_docs_try. rewrite resolve_token_spec.
  change (token_of E github_token (tick w)) with (token_of E github_token w).
  rewrite Ht. reflexivity.
Qed.

Lemma load_github_docs_no_client repo_name github_token branch w token e :
  token_of E github_token w = Some token ->
  Github_init E token = inl e ->
  fst (load_github_docs E repo_name github_token branch w) = inl unbound_g.
Proof.
  intros Ht Hg. eapply load_github_docs_unbound.
  unfold load_docs_try. rewrite resolve_token_spec.
  change (token_of E github_token (tick w)) with (token_of E github_token w).
  rewrite Ht. unfold call, emit. rewrite Hg. reflexivity.
Qed.

Lemma load_docs_try_trace repo_name github_token branch w :
  exists evs,
    trace (snd (snd (load_docs_try E repo_name github_token branch w)))
      = (trace w ++ evs)%list.
Proof.
  unfold load_docs_try. rewrite resolve_token_spec.
  destruct (token_of E github_token w) as [token |];
    [| by exists []; rewrite app_nil_r].
  unfold call, emit.
  destruct (Github_init E token) as [e | g]; [by exists [EGithub E token] |].
  cbn [snd].
  match goal with
  | |- context [load_docs_rest E g token repo_name branch ?w0] =>
      destruct (load_docs_rest_trace E g token repo_name branch w0) as [evs Hevs]
  end.
  cbn [trace] in Hevs. exists (EGithub E token :: evs).
  rewrite Hevs. by rewrite <- app_assoc.
Qed.

(** With a token and a client, and both segments of the name at hand, the
    call after the construction of the client is the lookup. *)
Lemma load_github_docs_lookup s github_token branch w token g owner repo :
  token_of E github_token w = Some token ->
  Github_init E token = inr g ->
  split_on "/" s !! 0 = Some owner ->
  split_on "/" s !! 1 = Some repo ->
  exists evs,
    trace (snd (load_github_docs E (PyStr s) github_token branch w))
      = (trace w ++ EGithub E token :: EGetRepo E g (owner ++ "/" ++ repo) :: evs)%list.
Proof.
  intros Ht Hg H0 H1.
  rewrite (load_github_docs_after_bind E _ _ _ _ _ _ Ht Hg).
  match goal with
  | |- context [load_docs_rest E g token (PyStr s) branch ?w0] =>
      destruct (load_docs_rest_lookup E g token s branch w0 owner repo H0 H1)
        as [evs Hevs];
      destruct (load_docs_rest E g token (PyStr s) branch w0) as [[e | r] w2]
  end; cbn [snd trace] in Hevs.
  - exists (evs ++ [EPrint E ("Error loading repository: " ++ exc_str e);
                    EPrint E (format_exc E e); EClose E g])%list.
    cbn [snd trace]. rewrite Hevs. by repeat (rewrite <- app_assoc; cbn [app]).
  - exists (evs ++ [EClose E g])%list.
    cbn [snd trace]. rewrite Hevs. by repeat (rewrite <- app_assoc; cbn [app]).
Qed.

End LoaderMore.

(** X1.  A call of the loader, whatever it does and however it ends, leaves
    the cache and the environment as they were, counts as exactly one entry
    into the loader, and only adds to the record of calls made. *)
Theorem load_github_docs_frame (E : Externals) (repo_name : pyval)
    (github_token : option string) (branch : pyval) (w : world E) :
  repo_cache (snd (load_github_docs E repo_name github_token branch w))
    = repo_cache w /\
  environ (snd (load_github_docs E repo_name github_token branch w))
    = environ w /\
  loader_calls (snd (load_github_docs E repo_name github_token branch w))
    = S (loader_calls w) /\
  exists evs,
    trace (snd (load_github_docs E repo_name github_token branch w))
      = (trace w ++ evs)%list.
Proof.
  destruct (load_github_docs_store E repo_name github_token branch w)
    as (Hc & He & Hn).
  repeat split; [exact Hc | exact He | exact Hn |].
  unfold load_github_docs.
  destruct (load_docs_try_trace E repo_name github_token branch (tick w))
    as [evs Hevs].
  destruct (load_docs_try E repo_name github_token branch (tick w))
    as [g [r w1]].
  cbn [snd trace tick] in Hevs.
  destruct r as [e | r], g as [g |];
    unfold load_docs_except, load_docs_finally, print; unfold_monad;
    cbn [fst snd trace repo_cache environ loader_calls]; rewrite Hevs.
  - eexists. repeat (rewrite <- app_assoc; cbn [app]). reflexivity.
  - eexists. repeat (rewrite <- app_assoc; cbn [app]). reflexivity.
  - eexists. repeat (rewrite <- app_assoc; cbn [app]). reflexivity.
  - by exists evs.
Qed.

(** X2.  When a token is at hand and the client of line 38 is built, the
    call returns (an index or [None]) whatever the later steps do, the last
    thing it does is to close that client, and it closes nothing else. *)
Theorem load_github_docs_closes_once (E : Externals) (repo_name : pyval)
    (github_token : option string) (branch : pyval) (w : world E)
    (token : string) (g : Github E) :
  token_of E github_token w = Some token ->
  Github_init E token = inr g ->
  exists r w' evs,
    load_github_docs E repo_name github_token branch w = (inr r, w') /\
    trace w' = (trace w ++ EGithub E token :: evs ++ [EClose E g])%list /\
    Forall (not_close E) evs.
Proof.
  intros Ht Hg. rewrite (load_github_docs_after_bind E _ _ _ _ _ _ Ht Hg).
  match goal with
  | |- context [load_docs_rest E g token repo_name branch ?w0] =>
      destruct (load_docs_rest_events E g token repo_name branch w0)
        as (evs & Hevs & Hnc);
      destruct (load_docs_rest E g token repo_name branch w0) as [[e | r] w2]
  end; cbn [snd trace] in Hevs.
  - exists None. eexists.
    exists (evs ++ [EPrint E ("Error loading repository: " ++ exc_str e);
                    EPrint E (format_exc E e)])%list.
    split; [reflexivity |]. split.
    + cbn [trace]. rewrite Hevs. by repeat (rewrite <- app_assoc; cbn [app]).
    + apply Forall_app. split; [exact Hnc |].
      repeat (constructor; [intros g' Hg'; discriminate Hg' |]). constructor.
  - exists r. eexists. exists evs.
    split; [reflexivity |]. split; [| exact Hnc].
    cbn [trace]. rewrite Hevs. by repeat (rewrite <- app_assoc; cbn [app]).
Qed.

Lemma load_github_docs_closes_once_witness :
  exists r w' evs,
    load_github_docs mock (PyStr "octo/hello") None (PyStr "main") configured
      = (inr r, w') /\
    trace w' = (trace configured ++
                EGithub mock "ghp_token" :: evs ++ [EClose mock "ghp_token"])%list /\
    Forall (not_close mock) evs.
Proof.
  apply (load_github_docs_closes_once mock (PyStr "octo/hello") None (PyStr "main")
           configured "ghp_token" "ghp_token"); vm_compute; reflexivity.
Defined.

(** X3.  A repo_name that cannot be split into two segments (a string
    without '/', or a value that is no string): with a token and a client,
    the call prints the error and its traceback, closes the client and
    returns [None]; no repository is looked up and nothing is fetched. *)
Theorem load_github_docs_bad_repo_name (E : Externals) (repo_name : pyval)
    (github_token : option string) (branch : pyval) (w : world E)
    (token : string) (g : Github E) (e : exn) :
  token_of E github_token w = Some token ->
  Github_init E token = inr g ->
  split_item repo_name 1 = inl e ->
  load_github_docs E repo_name github_token branch w =
    (inr None,
     World E (repo_cache w) (environ w)
       (trace w ++ [EGithub E token;
                    EPrint E ("Error loading repository: " ++ exc_str e);
                    EPrint E (format_exc E e);
                    EClose E g])
       (S (loader_calls w))).
Proof.
  intros Ht Hg Hsplit.
  rewrite (load_github_docs_after_bind E _ _ _ _ _ _ Ht Hg).
  rewrite (load_docs_rest_split_fails E _ _ _ _ _ _ Hsplit).
  cbn [repo_cache environ trace loader_calls].
  by repeat (rewrite <- app_assoc; cbn [app]).
Qed.

Lemma load_github_docs_bad_repo_name_witness :
  split_item (PyStr "octo") 1 = inl (IndexError "list index out of range") /\
  fst (load_github_docs mock (PyStr "octo") None (PyStr "main") configured)
    = inr None /\
  trace (snd (load_github_docs mock (PyStr "octo") None (PyStr "main") configured))
    = [EGithub mock "ghp_token";
       EPrint mock "Error loading repository: list index out of range";
       EPrint mock "Traceback (most recent call last): IndexError";
       EClose mock "ghp_token"].
Proof.
  split; [reflexivity |].
  rewrite (load_github_docs_bad_repo_name mock (PyStr "octo") None (PyStr "main")
             configured "ghp_token" "ghp_token"
             (IndexError "list index out of range"));
    [split; reflexivity | vm_compute; reflexivity | reflexivity | reflexivity].
Defined.

(** X4.  The loader returns an index exactly when every step succeeds: a
    token, the client, both segments of the name, the repository, the
    branch, the reader, a non-empty list of documents read at the commit of
    the branch, and the index built from those documents, which is the
    index returned. *)
Theorem load_github_docs_some_iff (E : Externals) (repo_name : pyval)
    (github_token : option string) (branch : pyval) (w : world E)
    (index : VectorStoreIndex E) :
  fst (load_github_docs E repo_name github_token branch w) = inr (Some index)
  <-> load_chain E repo_name github_token branch w index.
Proof.
  unfold load_chain. split.
  - intros Hret.
    destruct (token_of E github_token w) as [token |] eqn:Ht;
      [| by rewrite (load_github_docs_no_token E _ _ _ _ Ht) in Hret].
    destruct (Github_init E token) as [e | g] eqn:Hg;
      [by rewrite (load_github_docs_no_client E _ _ _ _ _ _ Ht Hg) in Hret |].
    rewrite (load_github_docs_after_bind E _ _ _ _ _ _ Ht Hg) in Hret.
    match type of Hret with
    | context [load_docs_rest E g token repo_name branch ?w0] =>
        pose proof (proj1 (load_docs_rest_some E g token repo_name branch w0 index))
          as Hrest;
        destruct (load_docs_rest E g token repo_name branch w0) as [[e | r] w2]
    end; cbn [fst] in Hret, Hrest; [discriminate |].
    destruct (Hrest Hret)
      as (owner & repo & repository & branch_ref & github_client & reader
          & documents & Hall).
    exists token, g, owner, repo, repository, branch_ref, github_client, reader,
      documents.
    by repeat split; try apply Hall.
  - intros (token & g & owner & repo & repository & branch_ref & github_client
            & reader & documents & Ht & Hg & Hall).
    rewrite (load_github_docs_after_bind E _ _ _ _ _ _ Ht Hg).
    match goal with
    | |- context [load_docs_rest E g token repo_name branch ?w0] =>
        pose proof (proj2 (load_docs_rest_some E g token repo_name branch w0 index))
          as Hrest;
        destruct (load_docs_rest E g token repo_name branch w0) as [[e | r] w2]
    end; cbn [fst] in Hrest |- *.
    + assert (@inl exn (option (VectorStoreIndex E)) e = inr (Some index)) as Habs
        by (apply Hrest; eauto 12).
      discriminate Habs.
    + apply Hrest. eauto 12.
Qed.

(** X5.  For a repo_name with exactly one '/', the two segments joined by
    '/' are repo_name itself: the repository the loader looks up is the one
    that was asked for. *)
Theorem load_github_docs_one_separator (E : Externals) (s : string)
    (github_token : option string) (branch : pyval) (w : world E)
    (token : string) (g : Github E) :
  count_char "/" s = 1 ->
  token_of E github_token w = Some token ->
  Github_init E token = inr g ->
  exists owner repo evs,
    split_on "/" s = [owner; repo] /\
    owner ++ "/" ++ repo = s /\
    trace (snd (load_github_docs E (PyStr s) github_token branch w))
      = (trace w ++ EGithub E token :: EGetRepo E g s :: evs)%list.
Proof.
  intros Hsep Ht Hg.
  pose proof (split_on_length "/" s) as Hl. rewrite Hsep in Hl.
  pose proof (split_on_concat "/" s) as Hjoin.
  destruct (split_on "/" s) as [| owner [| repo [| x rest]]] eqn:Hs;
    try discriminate Hl.
  cbn [String.concat] in Hjoin.
  destruct (load_github_docs_lookup E s github_token branch w token g owner repo
              Ht Hg) as [evs Hevs]; [by rewrite Hs | by rewrite Hs |].
  exists owner, repo, evs. rewrite Hjoin in Hevs. by repeat split.
Qed.

Lemma load_github_docs_one_separator_witness :
  count_char "/" "octo/hello" = 1 /\
  exists owner repo evs,
    split_on "/" "octo/hello" = [owner; repo] /\
    owner ++ "/" ++ repo = "octo/hello" /\
    trace (snd (load_github_docs mock (PyStr "octo/hello") None (PyStr "main")
                  configured))
      = (trace configured ++
         EGithub mock "ghp_token" :: EGetRepo mock "ghp_token" "octo/hello" :: evs)%list.
Proof.
  split; [reflexivity |].
  apply (load_github_docs_one_separator mock "octo/hello" None (PyStr "main")
           configured "ghp_token" "ghp_token"); vm_compute; reflexivity.
Defined.

Lemma load_github_docs_some_iff_witness :
  load_chain mock (PyStr "octo/hello") None (PyStr "main") configured
    ["README of octo/hello"].
Proof.
  apply (proj1 (load_github_docs_some_iff mock (PyStr "octo/hello") None
                  (PyStr "main") configured ["README of octo/hello"])).
  vm_compute; reflexivity.
Defined.

(* ===================================================================== *)
(** ** Further properties of the cache and of the handlers *)
(* ===================================================================== *)

Section ServiceMore.

Context (E : Externals).
Implicit Types (w : world E) (repo_name branch : pyval) (d : gmap string pyval).

(** Every cached index is a true value. *)
Definition cache_true (w : world E) : Prop :=
  forall k i, repo_cache w !! k = Some i -> index_truthy E i = true.

(** The two ways a call of [get_or_create_index] can go. *)
Lemma get_or_create_index_cases repo_name branch w :
  (exists idx,
     repo_cache w !! cache_key E repo_name branch = Some idx /\
     get_or_create_index E repo_name branch w = (inr (Some idx), w)) \/
  (repo_cache w !! cache_key E repo_name branch = None /\
   exists r w1,
     load_github_docs E repo_name None branch w = (r, w1) /\
     repo_cache w1 = repo_cache w /\ environ w1 = environ w /\
     loader_calls w1 = S (loader_calls w) /\
     get_or_create_index E repo_name branch w =
       match r with
       | inl e => (inl e, w1)
       | inr (Some i) =>
           if index_truthy E i
           then (inr (Some i),
                 World E (<[cache_key E repo_name branch := i]> (repo_cache w1))
                   (environ w1) (trace w1) (loader_calls w1))
           else (inr None, w1)
       | inr None => (inr None, w1)
       end).
Proof.
  destruct (repo_cache w !! cache_key E repo_name branch) as [idx |] eqn:Hk.
  - left. exists idx. split; [reflexivity |].
    by apply get_or_create_index_hit.
  - right. split; [reflexivity |].
    pose proof (load_github_docs_store E repo_name None branch w) as (Hc & He & Hn).
    destruct (load_github_docs E repo_name None branch w) as [r w1] eqn:Hl.
    cbn [snd] in Hc, He, Hn.
    exists r, w1. repeat split; try done.
    by apply get_or_create_index_miss.
Qed.

(** What [get_or_create_index] keeps: the environment, every entry that is
    there, and the truth of the cached values; it enters the loader on a
    miss and only then. *)
Lemma get_or_create_index_keeps repo_name branch w :
  let w' := snd (get_or_create_index E repo_name branch w) in
  environ w' = environ w /\
  (forall k i, repo_cache w !! k = Some i -> repo_cache w' !! k = Some i) /\
  (cache_true w -> cache_true w') /\
  loader_calls w' =
    match repo_cache w !! cache_key E repo_name branch with
    | Some _ => loader_calls w
    | None => S (loader_calls w)
    end.
Proof.
  cbn zeta.
  destruct (get_or_create_index_cases repo_name branch w)
    as [(idx & Hk & ->) | (Hk & r & w1 & _ & Hc & He & Hn & ->)];
    rewrite Hk; cbn [snd]; [done |].
  destruct r as [e | [i |]]; cbn [snd].
  - unfold cache_true. rewrite Hc. done.
  - destruct (index_truthy E i) eqn:Hi; cbn [snd environ repo_cache loader_calls].
    + repeat split; try done.
      * intros k j Hj. destruct (decide (k = cache_key E repo_name branch)) as [-> | Hne].
        -- congruence.
        -- by rewrite lookup_insert_ne, Hc.
      * intros Hall k j. cbn [repo_cache].
        destruct (decide (k = cache_key E repo_name branch)) as [-> | Hne].
        -- rewrite lookup_insert_eq. by intros [= <-].
        -- rewrite lookup_insert_ne, Hc by done. apply Hall.
    + unfold cache_true. rewrite Hc. done.
  - unfold cache_true. rewrite Hc. done.
Qed.

(** Lines 117-135 write nothing but the record of calls, and answer 200 only
    for a true index. *)
Lemma query_docs_answer_keeps index query_text w :
  let out := query_docs_answer E index query_text w in
  repo_cache (snd out) = repo_cache w /\
  environ (snd out) = environ w /\
  loader_calls (snd out) = loader_calls w /\
  forall response,
    fst out = inr response ->
    (status response = 500%Z /\ snd out = w) \/
    (status response = 200%Z /\
     exists i, index = Some i /\ index_truthy E i = true).
Proof.
  cbn zeta. unfold query_docs_answer.
  destruct index as [i |]; [destruct (index_truthy E i) eqn:Hi |].
  - unfold_monad.
    destruct (OpenAI E "gpt-3.5-turbo") as [e | llm]; [by cbn |].
    destruct (as_query_engine E i 3 llm) as [e | engine]; [by cbn |].
    destruct (query E engine query_text) as [e | response]; [by cbn |].
    cbn. repeat split; try done.
    intros response' [= <-]. right. split; [reflexivity | by exists i].
  - unfold ret. cbn. repeat split; try done. intros response [= <-]. by left.
  - unfold ret. cbn. repeat split; try done. intros response [= <-]. by left.
Qed.

(** A body that is no dict is either rejected with 400 or makes the [try]
    block raise; the state is untouched. *)
Lemma query_docs_try_not_dict request data w :
  get_json E request = inr data ->
  (forall d, data <> PyDict d) ->
  query_docs_try E request w
    = (inr (Http 400 (error_body "Missing required parameters")), w) \/
  exists e, query_docs_try E request w = (inl e, w).
Proof.
  intros Hj Hnd.
  unfold query_docs_try, missing_parameters. unfold_monad. rewrite Hj.
  destruct data as [| b | z | f | s | l | d]; cbn.
  - by left.
  - destruct b; [right; by eexists | by left].
  - destruct (z =? 0)%Z; [by left | right; by eexists].
  - destruct f; first [by left | right; by eexists].
  - destruct (String.eqb s ""); [by left |]. cbn.
    destruct (contains "repo" s); [| by left]. cbn.
    destruct (contains "query" s); [| by left]. cbn.
    right; by eexists.
  - destruct l as [| x l]; [by left |]. cbn [negb].
    repeat match goal with
           | |- context [negb ?b] => destruct b; cbn [negb]
           end;
      first [by left | right; by eexists].
  - by destruct (Hnd d).
Qed.

(** The ways the [try] block of the handler can end. *)
Lemma query_docs_try_cases request w :
  (exists e, query_docs_try E request w = (inl e, w)) \/
  query_docs_try E request w
    = (inr (Http 400 (error_body "Missing required parameters")), w) \/
  (exists d repo query_text,
     get_json E request = inr (PyDict d) /\
     d !! "repo" = Some repo /\ d !! "query" = Some query_text /\
     query_docs_try E request w =
       bind (get_or_create_index E repo (default (PyStr "main") (d !! "branch")))
            (fun index => query_docs_answer E index query_text) w).
Proof.
  destruct (get_json E request) as [e | data] eqn:Hj.
  - left. exists e. unfold query_docs_try. unfold_monad. by rewrite Hj.
  - assert ((exists d, data = PyDict d) \/ (forall d, data <> PyDict d)) as [[d ->] | Hnd]
      by (destruct data; eauto; right; intros; discriminate).
    + destruct (d !! "repo") as [repo |] eqn:Hr;
        [destruct (d !! "query") as [query_text |] eqn:Hq |].
      * right. right. exists d, repo, query_text. repeat split; try done.
        by apply query_docs_try_valid.
      * right. left. unfold query_docs_try. unfold_monad.
        by rewrite Hj, (missing_parameters_lacking d (or_intror Hq)).
      * right. left. unfold query_docs_try. unfold_monad.
        by rewrite Hj, (missing_parameters_lacking d (or_introl Hr)).
    + destruct (query_docs_try_not_dict request data w Hj Hnd) as [H | H]; auto.
Qed.

(** What a request keeps, whichever way it is answered. *)
Lemma query_docs_keeps request w :
  let w' := snd (query_docs E request w) in
  environ w' = environ w /\
  (forall k i, repo_cache w !! k = Some i -> repo_cache w' !! k = Some i) /\
  (cache_true w -> cache_true w') /\
  loader_calls w <= loader_calls w' <= S (loader_calls w).
Proof.
  cbn zeta. rewrite query_docs_outcome.
  destruct (query_docs_try_cases request w)
    as [[e ->] | [-> | (d & repo & query_text & _ & _ & _ & ->)]];
    cbn [snd]; [repeat split; (done || lia) .. |].
  unfold bind.
  pose proof (get_or_create_index_keeps repo
                (default (PyStr "main") (d !! "branch")) w) as Hget.
  cbn zeta in Hget.
  destruct (get_or_create_index E repo (default (PyStr "main") (d !! "branch")) w)
    as [[e | index] w1]; cbn [snd] in Hget |- *;
    destruct Hget as (He & Hmono & Htrue & Hn).
  - repeat split; try done;
      destruct (repo_cache w !! cache_key E repo (default (PyStr "main") (d !! "branch")));
      lia.
  - pose proof (query_docs_answer_keeps index query_text w1) as Hans.
    cbn zeta in Hans.
    destruct (query_docs_answer E index query_text w1) as [[e | response] w2];
      cbn [snd] in Hans |- *; destruct Hans as (Hc2 & He2 & Hn2 & _);
      unfold cache_true in *; rewrite Hc2, He2, Hn2;
      (repeat split; try done;
       destruct (repo_cache w !! cache_key E repo (default (PyStr "main") (d !! "branch")));
       lia).
Qed.

(** Behind an answer of 200 there is a dict body with both fields and a
    true index, which is in the cache under the key of the request when
    the handler returns. *)
Lemma query_docs_ok_inv request w response w' :
  query_docs E request w = (inr response, w') ->
  status response = 200%Z ->
  exists d repo query_text idx,
    get_json E request = inr (PyDict d) /\
    d !! "repo" = Some repo /\
    d !! "query" = Some query_text /\
    index_truthy E idx = true /\
    repo_cache w' !! cache_key E repo (default (PyStr "main") (d !! "branch"))
      = Some idx.
Proof.
  intros Hq Hs. rewrite query_docs_outcome in Hq.
  destruct (query_docs_try_cases request w)
    as [[e He] | [He | (d & repo & query_text & Hj & Hr & Hqt & He)]];
    rewrite He in Hq.
  - injection Hq as <- _. discriminate Hs.
  - injection Hq as <- _. discriminate Hs.
  - unfold bind in Hq.
    destruct (get_or_create_index_key E repo
                (default (PyStr "main") (d !! "branch")) w) as [_ Hret].
    destruct (get_or_create_index E repo (default (PyStr "main") (d !! "branch")) w)
      as [[e | index] w1]; cbn [fst snd] in Hret.
    + injection Hq as <- _. discriminate Hs.
    + pose proof (query_docs_answer_keeps index query_text w1) as Hans.
      cbn zeta in Hans.
      destruct (query_docs_answer E index query_text w1) as [[e | response'] w2];
        cbn [fst snd] in Hans; destruct Hans as (Hc2 & _ & _ & Hst).
      * injection Hq as <- _. discriminate Hs.
      * injection Hq as <- <-.
        destruct (Hst response' eq_refl) as [[H500 _] | [_ (i & -> & Hi)]];
          [rewrite Hs in H500; discriminate H500 |].
        exists d, repo, query_text, i. repeat split; try done.
        rewrite Hc2. symmetry. by apply Hret.
Qed.

End ServiceMore.

(** X6.  A call of [get_or_create_index] enters the loader exactly once
    when the key is not in the cache, and not at all when it is. *)
Theorem get_or_create_index_loader_calls (E : Externals)
    (repo_name branch : pyval) (w : world E) :
  loader_calls (snd (get_or_create_index E repo_name branch w)) =
    match repo_cache w !! cache_key E repo_name branch with
    | Some _ => loader_calls w
    | None => S (loader_calls w)
    end.
Proof.
  pose proof (get_or_create_index_keeps E repo_name branch w) as H.
  cbn zeta in H. apply H.
Qed.

(** X7.  A load that gives no index is not remembered: when the key is not
    in the cache and the call does not return an index (the loader returned
    [None] or raised), the cache mapping is unchanged, and the next call
    with the same arguments enters the loader again. *)
Theorem get_or_create_index_failure_not_cached (E : Externals)
    (repo_name branch : pyval) (w : world E) :
  repo_cache w !! cache_key E repo_name branch = None ->
  (forall i, fst (get_or_create_index E repo_name branch w) <> inr (Some i)) ->
  repo_cache (snd (get_or_create_index E repo_name branch w)) = repo_cache w /\
  loader_calls (snd (get_or_create_index E repo_name branch
                       (snd (get_or_create_index E repo_name branch w))))
    = S (loader_calls (snd (get_or_create_index E repo_name branch w))).
Proof.
  intros Hk Hnone.
  assert (repo_cache (snd (get_or_create_index E repo_name branch w)) = repo_cache w)
    as Hsame.
  { destruct (get_or_create_index_cases E repo_name branch w)
      as [(idx & Hk' & _) | (_ & r & w1 & _ & Hc & _ & _ & Hget)];
      [congruence |].
    rewrite Hget in Hnone |- *.
    destruct r as [e | [i |]]; cbn [fst snd] in *; try done.
    destruct (index_truthy E i); cbn [fst snd] in *; [| done].
    by destruct (Hnone i). }
  split; [exact Hsame |].
  pose proof (get_or_create_index_keeps E repo_name branch
                (snd (get_or_create_index E repo_name branch w))) as H.
  cbn zeta in H. destruct H as (_ & _ & _ & ->). by rewrite Hsame, Hk.
Qed.

Lemma get_or_create_index_failure_not_cached_witness :
  fst (get_or_create_index mock (PyStr "octo/empty") (PyStr "main") configured)
    = inr None /\
  repo_cache (snd (get_or_create_index mock (PyStr "octo/empty") (PyStr "main")
                     configured)) = repo_cache configured /\
  loader_calls
    (snd (get_or_create_index mock (PyStr "octo/empty") (PyStr "main")
            (snd (get_or_create_index mock (PyStr "octo/empty") (PyStr "main")
                    configured)))) = 2.
Proof.
  split; [vm_compute; reflexivity |].
  destruct (get_or_create_index_failure_not_cached mock (PyStr "octo/empty")
              (PyStr "main") configured) as [Hc Hn].
  - vm_compute; reflexivity.
  - intros i. vm_compute. discriminate.
  - split; [exact Hc |]. rewrite Hn. vm_compute; reflexivity.
Defined.

(** X8.  No request evicts or replaces a cached index: an entry that is in
    the cache before [POST /query] runs is there, unchanged, after it,
    whatever the request and however it is answered. *)
Theorem query_docs_keeps_entries (E : Externals) (request : Request E)
    (w : world E) (k : string) (i : VectorStoreIndex E) :
  repo_cache w !! k = Some i ->
  repo_cache (snd (query_docs E request w)) !! k = Some i.
Proof.
  pose proof (query_docs_keeps E request w) as H. cbn zeta in H.
  destruct H as (_ & Hmono & _). apply Hmono.
Qed.

Lemma query_docs_keeps_entries_witness :
  let w1 := snd (query_docs mock hello_request configured) in
  repo_cache w1 !! "octo/hello:main" = Some ["README of octo/hello"] /\
  repo_cache (snd (query_docs mock (inr (PyInt 5)) w1)) !! "octo/hello:main"
    = Some ["README of octo/hello"].
Proof.
  cbv zeta. split; [vm_compute; reflexivity |].
  apply (query_docs_keeps_entries mock (inr (PyInt 5))
           (snd (query_docs mock hello_request configured))
           "octo/hello:main" ["README of octo/hello"]).
  vm_compute; reflexivity.
Defined.

(** X9.  [POST /query] never writes the environment, and one request
    enters the loader at most once. *)
Theorem query_docs_environ_and_loader (E : Externals) (request : Request E)
    (w : world E) :
  environ (snd (query_docs E request w)) = environ w /\
  loader_calls w <= loader_calls (snd (query_docs E request w))
    <= S (loader_calls w).
Proof.
  pose proof (query_docs_keeps E request w) as H. cbn zeta in H.
  destruct H as (He & _ & _ & Hn). by split.
Qed.



(** X11.  [POST /query] always answers: the handler never lets an
    exception out, and the status of its answer is 200, 400 or 500. *)
Theorem query_docs_always_answers (E : Externals) (request : Request E)
    (w : world E) :
  exists response w',
    query_docs E request w = (inr response, w') /\
    (status response = 200%Z \/ status response = 400%Z \/ status response = 500%Z).
Proof.
  rewrite query_docs_outcome.
  destruct (query_docs_try_cases E request w)
    as [[e ->] | [-> | (d & repo & query_text & _ & _ & _ & ->)]].
  - do 2 eexists. split; [reflexivity |]. cbn. auto.
  - do 2 eexists. split; [reflexivity |]. cbn. auto.
  - unfold bind.
    destruct (get_or_create_index E repo (default (PyStr "main") (d !! "branch")) w)
      as [[e | index] w1].
    + do 2 eexists. split; [reflexivity |]. cbn. auto.
    + pose proof (query_docs_answer_keeps E index query_text w1) as Hans.
      cbn zeta in Hans. destruct Hans as (_ & _ & _ & Hst).
      destruct (query_docs_answer E index query_text w1) as [[e | response] w2];
        cbn [fst] in Hst.
      * do 2 eexists. split; [reflexivity |]. cbn. auto.
      * exists response, w2. split; [reflexivity |].
        destruct (Hst response eq_refl) as [[H _] | [H _]]; auto.
Qed.

(** X12.  An answer of 200 is only ever given to a body that is a JSON
    object with 'repo' and 'query', and when it is given the cache holds a
    true index under the key of that repo and branch ("main" when the body
    has no 'branch'). *)
Theorem query_docs_ok_cached (E : Externals) (request : Request E)
    (w w' : world E) (response : http_response) :
  query_docs E request w = (inr response, w') ->
  status response = 200%Z ->
  exists d repo query_text idx,
    get_json E request = inr (PyDict d) /\
    d !! "repo" = Some repo /\
    d !! "query" = Some query_text /\
    index_truthy E idx = true /\
    repo_cache w' !! cache_key E repo (default (PyStr "main") (d !! "branch"))
      = Some idx.
Proof.
  intros Hq Hs. exact (query_docs_ok_inv E request w response w' Hq Hs).
Qed.

Lemma query_docs_ok_cached_witness :
  status (Http 200 (jsonify
            {[ "response" := PyStr "a fixed answer";
               "sources" := PyList [PyStr "first passage"; PyStr "second passage"] ]}))
    = 200%Z /\
  exists d repo query_text idx,
    get_json mock hello_request = inr (PyDict d) /\
    d !! "repo" = Some repo /\
    d !! "query" = Some query_text /\
    index_truthy mock idx = true /\
    repo_cache (snd (query_docs mock hello_request configured))
      !! cache_key mock repo (default (PyStr "main") (d !! "branch")) = Some idx.
Proof.
  split; [reflexivity |].
  apply (query_docs_ok_cached mock hello_request configured _
           (Http 200 (jsonify
              {[ "response" := PyStr "a fixed answer";
                 "sources" := PyList [PyStr "first passage"; PyStr "second passage"] ]})));
    [vm_compute; reflexivity | reflexivity].
Defined.



(** X14.  A well-formed [POST /query] for a repo that is not cached, in a
    process without a (non-empty) [GITHUB_TOKEN]: the answer is 500 and its
    error text is the message of the [UnboundLocalError] raised by line 76,
    which is not "Failed to load repository"; the loader was entered once,
    printed the token error, and the cache is unchanged. *)
Theorem query_docs_without_token (E : Externals) (request : Request E)
    (d : gmap string pyval) (repo query_text : pyval) (w : world E) :
  get_json E request = inr (PyDict d) ->
  d !! "repo" = Some repo ->
  d !! "query" = Some query_text ->
  repo_cache w !! cache_key E repo (default (PyStr "main") (d !! "branch")) = None ->
  str_truthy (environ w !! "GITHUB_TOKEN") = false ->
  query_docs E request w =
    (inr (Http 500 (PyDict {[ "error" := PyStr (exc_str unbound_g) ]})),
     World E (repo_cache w) (environ w)
       (trace w ++ [EPrint E "Error loading repository: GitHub token not found";
                    EPrint E (format_exc E (ValueError "GitHub token not found"))])
       (S (loader_calls w))) /\
  exc_type unbound_g = "UnboundLocalError" /\
  exc_str unbound_g <> "Failed to load repository".
Proof.
  intros Hj Hr Hq Hmiss Htok.
  pose proof (get_or_create_index_miss E _ _ _ _ _ Hmiss
                (load_github_docs_token_missing E _ _ _ Htok)) as Hget.
  cbv beta iota in Hget.
  split; [| split; [reflexivity | discriminate]].
  exact (query_docs_index_raises E request d repo query_text w _ unbound_g
           Hj Hr Hq Hget).
Qed.

Lemma query_docs_without_token_witness :
  str_truthy (environ (empty_world mock) !! "GITHUB_TOKEN") = false /\
  fst (query_docs mock hello_request (empty_world mock)) =
    inr (Http 500 (PyDict {[ "error" := PyStr
      "cannot access local variable 'g' where it is not associated with a value" ]})) /\
  loader_calls (snd (query_docs mock hello_request (empty_world mock))) = 1.
Proof.
  split; [vm_compute; reflexivity |].
  rewrite (proj1 (query_docs_without_token mock hello_request
             {[ "repo" := PyStr "octo/hello"; "query" := PyStr "what is this?" ]}
             (PyStr "octo/hello") (PyStr "what is this?") (empty_world mock)
             ltac:(reflexivity) ltac:(vm_compute; reflexivity)
             ltac:(vm_compute; reflexivity) ltac:(vm_compute; reflexivity)
             ltac:(vm_compute; reflexivity))).
  split; reflexivity.
Defined.

Lemma query_docs_rejected_witness :
  query_docs mock (inr (PyDict {[ "repo" := PyStr "octo/hello" ]})) configured
    = (inr (Http 400 (PyDict {[ "error" := PyStr "Missing required parameters" ]})),
       configured) /\
  query_docs mock (inr (PyList [])) configured
    = (inr (Http 400 (PyDict {[ "error" := PyStr "Missing required parameters" ]})),
       configured).
Proof.
  split.
  - apply (query_docs_rejected mock (inr (PyDict {[ "repo" := PyStr "octo/hello" ]}))
             (PyDict {[ "repo" := PyStr "octo/hello" ]}) configured);
      [reflexivity |].
    right. exists {[ "repo" := PyStr "octo/hello" ]}.
    split; [reflexivity | right; vm_compute; reflexivity].
  - apply (query_docs_rejected mock (inr (PyList [])) (PyList []) configured);
      [reflexivity | left; reflexivity].
Defined.



(** X17.  The cache key tells requests apart as long as repo names hold no
    ':' : for such names, two (repo_name, branch) pairs of strings with the
    same key are the same pair. *)
Theorem cache_key_injective (E : Externals) (r r' b b' : string) :
  count_char ":" r = 0 ->
  count_char ":" r' = 0 ->
  cache_key E (PyStr r) (PyStr b) = cache_key E (PyStr r') (PyStr b') ->
  r = r' /\ b = b'.
Proof.
  unfold cache_key, py_str. revert r'.
  induction r as [| c r IH]; intros [| c' r'] Hr Hr' Hkey;
    cbn [count_char] in Hr, Hr'; cbv [String.append] in Hkey.
  - by injection Hkey as ->.
  - injection Hkey as <- _. discriminate Hr'.
  - injection Hkey as -> _. discriminate Hr.
  - injection Hkey as -> Hkey.
    destruct (Ascii.eqb c' ":"); [discriminate Hr |].
    destruct (IH r' Hr Hr' Hkey) as [-> ->]. by split.
Qed.

Lemma cache_key_injective_witness :
  cache_key mock (PyStr "octo/hello") (PyStr "main") = "octo/hello:main" /\
  ("octo/hello" = "octo/hello" /\ "main" = "main").
Proof.
  split; [reflexivity |].
  apply (cache_key_injective mock "octo/hello" "octo/hello" "main" "main");
    reflexivity.
Defined.
